(** * The Interface layer of the ROS bridge ([ROSUtil/_Interface.py])

    A shallow embedding of [InterfaceBase], [ServiceInterface] (with its
    nested [ServiceTask]), [PublisherInterface] and [SubscriberInterface],
    followed by the properties of the wire descriptors, of the readiness
    guard, of manager registration and of the service-task registry. *)

From Stdlib Require Import ZArith NArith Lia Strings.Byte.
From stdpp Require Import base option list strings gmap.

Set Default Proof Using "Type".

(** A decidable closed proposition, settled by evaluation. *)
Ltac by_decide := apply (bool_decide_unpack _); vm_compute; exact I.

(** ** Python values shared by all classes *)

(** A Python 2 [str]: a sequence of bytes (wire buffers, payloads,
    interface names, correlation tokens).  Attribute names and the texts of
    error messages, which are fixed by the program text, are [string]s. *)
Abbreviation bytes := (list byte).

#[global] Instance byte_eq_dec : EqDecision byte := Byte.byte_eq_dec.
#[global] Instance byte_countable : Countable byte :=
  inj_countable Byte.to_N Byte.of_N Byte.of_to_N.

(** The bytes of a literal. *)
Definition bytes_of (s : string) : bytes := String.list_byte_of_string s.

(** The exceptions that can travel through the module.  [InternalError]
    keeps its message, [AttributeError] the name of the offending
    attribute; [struct.error] is [StructError].  [DanglingReference] is
    not a Python exception: it is what the model answers when an object
    identity is looked up that the object store does not hold, which no
    Python reference ever does. *)
Inductive exn : Type :=
  | InternalError (message : string)
  | SerializationError
  | StructError
  | AttributeError (attribute : string)
  | TypeError
  | KeyError
  | ValueError
  | ROSInterruptException
  | ROSSerializationException
  | ROSException
  | DanglingReference.

(** Outcome of evaluating an expression or running a statement block.
    [Unfinished] is the outcome of a loop that is still iterating when the
    events supplied to the model run out (see [ServiceInterface.allocate]):
    the call has not returned. *)
Inductive result (A : Type) : Type :=
  | Return (a : A)
  | Raise (e : exn)
  | Unfinished.
Arguments Return {A} a.
Arguments Raise {A} e.
Arguments Unfinished {A}.

#[global] Instance result_ret : MRet result := @Return.
#[global] Instance result_bind : MBind result := λ A B f r,
  match r with
  | Return a => f a
  | Raise e => Raise e
  | Unfinished => Unfinished
  end.

(** [try: body / except <class>: handler]: the handler table says which
    exceptions are caught; the others keep propagating. *)
Definition try_except {A} (body : result A) (handler : exn → option (result A))
    : result A :=
  match body with
  | Return a => Return a
  | Raise e => match handler e with
               | Some h => h
               | None => Raise e
               end
  | Unfinished => Unfinished
  end.

(** Methods mutate [self]: a method over an object state [S] maps the state
    before the call to the state after it and the outcome. *)
Definition M (S A : Type) : Type := S → S * result A.

Module Meth.
Definition ret {S A} (a : A) : M S A := λ s, (s, Return a).
Definition raise {S A} (e : exn) : M S A := λ s, (s, Raise e).
Definition bind {S A B} (m : M S A) (k : A → M S B) : M S B := λ s,
  match m s with
  | (s', Return a) => k a s'
  | (s', Raise e) => (s', Raise e)
  | (s', Unfinished) => (s', Unfinished)
  end.
(** [try/except] around a block that mutates state: what the block did
    before raising stays done. *)
Definition try_except {S A} (body : M S A) (handler : exn → option (M S A))
    : M S A := λ s,
  match body s with
  | (s', Return a) => (s', Return a)
  | (s', Raise e) => match handler e with
                     | Some h => h s'
                     | None => (s', Raise e)
                     end
  | (s', Unfinished) => (s', Unfinished)
  end.
End Meth.

#[global] Instance meth_ret {S} : MRet (M S) := @Meth.ret S.
#[global] Instance meth_bind {S} : MBind (M S) := λ A B k m, Meth.bind m k.

(** State after a method call, and its outcome. *)
Definition after {S A} (m : M S A) (self : S) : S := (m self).1.
Definition outcome {S A} (m : M S A) (self : S) : result A := (m self).2.

(** A caller that makes the calls one after the other and goes on after
    an exception: the final state and every outcome, in order. *)
Fixpoint run_all {S A} (calls : list (M S A)) (self : S)
    : S * list (result A) :=
  match calls with
  | [] => (self, [])
  | c :: calls' =>
    let '(self1, r) := c self in
    let '(self2, rs) := run_all calls' self1 in
    (self2, r :: rs)
  end.

(** ** [ContentDefinition.STRUCT_I] and [LEN_I] *)

(** [STRUCT_I] and [LEN_I] are imported from the module
    [ContentDefinition]; the wire format has "a 4-byte length field", so
    [STRUCT_I] is a [struct.Struct] of one unsigned 32-bit integer and
    [LEN_I] is its size.  The format string that fixes the byte order is
    in [ContentDefinition] too: the order is a parameter, and every
    statement below holds for both. *)
Inductive byte_order : Type := BigEndian | LittleEndian.

(** Modelled from the spec: [LEN_I], the size of "a 4-byte length
    field". *)
Definition LEN_I : nat := 4.

Module STRUCT_I.
(** Modelled from the spec: the unsigned integer that the bytes of a
    length field denote, most significant byte first. *)
Definition decode (s : bytes) : N :=
  foldl (λ acc c, acc * 256 + Byte.to_N c)%N 0%N s.

(** Modelled from the spec: the byte of value [n mod 256]. *)
Definition byte_of_N (n : N) : byte :=
  default x00 (Byte.of_N (n mod 256)).

(** Modelled from the spec: the four bytes of a length field, most
    significant byte first. *)
Definition encode (n : N) : bytes :=
  [byte_of_N (n / 16777216); byte_of_N (n / 65536);
   byte_of_N (n / 256); byte_of_N n].

(** Modelled from the spec: the bytes of a field in the order of the
    wire. *)
Definition arrange (bo : byte_order) (s : bytes) : bytes :=
  match bo with
  | BigEndian => s
  | LittleEndian => reverse s
  end.

(** Modelled from the spec: [STRUCT_I.unpack(s)], which raises
    [struct.error] unless [s] has exactly [LEN_I] bytes. *)
Definition unpack (bo : byte_order) (s : bytes) : result N :=
  if decide (length s = LEN_I) then Return (decode (arrange bo s))
  else Raise StructError.

(** Modelled from the spec: [STRUCT_I.pack(n)], which raises
    [struct.error] when [n] does not fit in four bytes. *)
Definition pack (bo : byte_order) (n : N) : result bytes :=
  if decide (n < 4294967296)%N then Return (arrange bo (encode n))
  else Raise StructError.
End STRUCT_I.

(** [data[start:end]] for non-negative indices: clipped to the buffer,
    empty when [end <= start], never an error. *)
Definition slice (data : bytes) (start stop : nat) : bytes :=
  take (stop - start) (drop start data).

(** The objects a variable or an attribute of this module can hold. *)
Inductive class : Type :=
  | InterfaceBase_cls
  | ServiceInterface_cls
  | PublisherInterface_cls
  | SubscriberInterface_cls.

Inductive value : Type :=
  | VNone
  | VBool (flag : bool)
  | VStr (s : bytes)
  | VEvent (flag : bool)          (* a [threading.Event] and its flag *)
  | VInterface (name : bytes)     (* an interface, known by its name *)
  | VClass (c : class).

(** Truth value of an object in a condition ([if x:], [if not x:]). *)
Definition truth (v : value) : bool :=
  match v with
  | VNone => false
  | VBool flag => flag
  | VStr s => bool_decide (s ≠ [])
  | VEvent _ | VInterface _ | VClass _ => true
  end.

(** An instance attribute that is created by assignment: reading it
    before the first assignment is an [AttributeError]. *)
Inductive attribute (A : Type) : Type :=
  | Missing
  | Bound (a : A).
Arguments Missing {A}.
Arguments Bound {A} a.

(** ** External collaborators *)

(** The manager, known by identity; its class is not part of this
    module.  [manager_truth] is the truth value of the object in a
    condition (true unless its class defines [__nonzero__] or [__len__]
    otherwise).  The three methods are what the manager answers when this
    module calls them: each may return or raise; [registerInterface] and
    [unregisterInterface] are given the name of the interface that calls. *)
Record Manager : Type := {
  manager_id : nat;
  manager_truth : bool;
  registerInterface : bytes → result unit;
  unregisterInterface : bytes → result unit;
  runTaskInSeparateThread : result unit
}.

(** Truth value of [self._manager] in a condition; [None] is false. *)
Definition truth_manager (m : option Manager) : bool :=
  match m with
  | Some m => manager_truth m
  | None => false
  end.

(** [rospy.AnyMsg] or a typed message class. *)
Inductive msg_class : Type := AnyMsg | Typed (name : bytes).

(** A service class as [genpy.message.get_service_class] loads it. *)
Record SrvCls : Type := {
  srv_type : bytes;
  _request_class : msg_class;
  _response_class : msg_class
}.

(** A [rospy.Publisher]: [publish] is the middleware's answer to
    [publish(msg)] for a message with buffer [msg]. *)
Record Publisher : Type := {
  pub_topic : bytes;
  pub_latch : bool;
  publish : bytes → result unit
}.

(** A [rospy.Subscriber]. *)
Record Subscriber : Type := { sub_topic : bytes }.

(** What the middleware does when this module calls into it. *)
Record Rospy : Type := {
  get_service_class : bytes → result SrvCls;
  new_Publisher : bytes → bool → Publisher
}.

(** ** [class InterfaceBase] *)

Module InterfaceBase.

(** The attributes [__init__] creates. *)
Record t : Type := {
  interfaceName : bytes;
  _manager : option Manager;
  ready : bool
}.

Definition __init__ (interfaceName : bytes) : t :=
  {| interfaceName := interfaceName; _manager := None; ready := false |}.

Definition set_manager (m : option Manager) (self : t) : t :=
  {| interfaceName := interfaceName self; _manager := m;
     ready := ready self |}.

Definition set_ready (flag : bool) (self : t) : t :=
  {| interfaceName := interfaceName self; _manager := _manager self;
     ready := flag |}.

(** A class of the hierarchy: the state of an instance holds the
    attributes of [InterfaceBase], and the class fixes the four hooks
    that [start], [send], [receive] and [stop] dispatch to.  Writing the
    base attributes and reading them back gives what was written. *)
Class Interface (S : Type) : Type := {
  base : S → t;
  with_base : t → S → S;
  _start : M S unit;
  _send : bytes → M S bytes;
  _receive : bytes → M S value;
  _stop : M S unit;
  base_with_base : ∀ b self, base (with_base b self) = b
}.

(** The hooks as [InterfaceBase] itself defines them. *)
Definition default_start {S} : M S unit := mret tt.
Definition default_send {S} (msg : bytes) : M S bytes :=
  Meth.raise (InternalError "Interface does not support sending of a message.").
Definition default_receive {S} (taskID : bytes) : M S value :=
  Meth.raise (InternalError "Interface does not support receiving of a message.").
Definition default_stop {S} : M S unit := mret tt.

#[global] Instance interface : Interface t := {|
  base := id;
  with_base := λ b _, b;
  _start := default_start;
  _send := default_send;
  _receive := default_receive;
  _stop := default_stop;
  base_with_base := λ _ _, eq_refl
|}.

Section Methods.
Context {S : Type} `{!Interface S}.

Definition registerManager (manager : Manager) : M S unit := λ self,
  if truth_manager (_manager (base self))
  then (self, Raise (InternalError "There is already a manager registered."))
  else (with_base (set_manager (Some manager) (base self)) self, Return tt).

(** [self.ready = flag] *)
Definition assign_ready (flag : bool) : M S unit := λ self,
  (with_base (set_ready flag (base self)) self, Return tt).

(** [self._manager.registerInterface(self)] and
    [self._manager.unregisterInterface(self)]: the outcome is the
    manager's; on [None] the attribute lookup fails. *)
Definition manager_call (name : string)
    (method : Manager → bytes → result unit) : M S unit := λ self,
  match _manager (base self) with
  | Some m => (self, method m (interfaceName (base self)))
  | None => (self, Raise (AttributeError name))
  end.

Definition start : M S unit := λ self,
  if negb (truth_manager (_manager (base self)))
  then (self, Raise (InternalError
          "Can not start an interface without a registered manager."))
  else if ready (base self) then (self, Return tt)
  else (_start;;
        manager_call "registerInterface" registerInterface;;
        assign_ready true) self.

Definition send (msg : bytes) : M S bytes := λ self,
  if ready (base self)
  then (self, Raise (InternalError "Interface is not ready to send a message."))
  else _send msg self.

Definition receive (taskID : bytes) : M S value := λ self,
  if ready (base self)
  then (self, Raise (InternalError "Interface is not ready to receive a message."))
  else _receive taskID self.

Definition stop : M S unit := λ self,
  if negb (ready (base self)) then (self, Return tt)
  else (_stop;;
        assign_ready false;;
        manager_call "unregisterInterface" unregisterInterface) self.
End Methods.

(** [deserialize] is a class method: [cls] is the class it is called
    on, and [call] is the call operator of the language ([cls(name)]),
    defined with the classes below. *)
Definition deserialize {I : Type} (call : value → list value → result I)
    (bo : byte_order) (cls : value) (data : bytes) : result I :=
  name ← try_except
    (let start := 0 in
     let end_ := LEN_I in
     length ← STRUCT_I.unpack bo (slice data start end_);
     let start := end_ in
     let end_ := end_ + N.to_nat length in
     mret (slice data start end_))
    (λ e, match e with
          | StructError => Some (Raise SerializationError)
          | _ => None
          end);
  call cls [VStr name].

End InterfaceBase.

(** ** [class ServiceInterface(InterfaceBase)] *)

(** Identity of a [ServiceTask] object. *)
Abbreviation loc := nat.

Module ServiceInterface.

(** *** The nested [class ServiceTask(object)] *)
Module ServiceTask.

Definition __slots__ : list string :=
  ["_completed"; "_error"; "_srv"; "_msg"; "_id"]%string.

(** The class declares [__slots__] and derives from [object] only, so
    an instance has no [__dict__]: it stores the attributes named in
    [__slots__] and no others.  A slot that was never assigned is
    absent from the map. *)
Abbreviation t := (gmap string value).

(** [self.<name> = v] *)
Definition setattr (name : string) (v : value) : M t unit := λ self,
  if decide (name ∈ __slots__) then (<[name := v]> self, Return tt)
  else (self, Raise (AttributeError name)).

(** [self.<name>] *)
Definition getattr (name : string) : M t value := λ self,
  match self !! name with
  | Some v => (self, Return v)
  | None => (self, Raise (AttributeError name))
  end.

Definition __init__ (srv : value) (msg : bytes) : M t unit :=
  setattr "_id" VNone;;
  setattr "_srv" srv;;
  setattr "_msg" (VStr msg);;
  setattr "_completed" (VBool false);;
  setattr "_error" (VBool false);;
  setattr "_hasID" (VEvent false);;
  setattr "_signalCompletion" (VBool false).

(** [self.<name>.set()]: the event is reached through the attribute
    and its flag raised in place. *)
Definition event_set (name : string) : M t unit :=
  ev ← getattr name;
  match ev with
  | VEvent _ => λ self, (<[name := VEvent true]> self, Return tt)
  | _ => Meth.raise (AttributeError "set")
  end.

Definition setID (taskID : bytes) : M t unit :=
  ev ← getattr "_hasID";
  match ev with
  | VEvent true => Meth.raise (InternalError "Task already has an ID.")
  | VEvent false => setattr "_id" (VStr taskID);; event_set "_hasID"
  | _ => Meth.raise (AttributeError "isSet")
  end.

(** [run] on its own thread.  [response] is what waiting for the
    service and calling it gives ([response._buff], or the exception
    raised); [str_e] is [str(e)] for that exception.  The final
    [self._srv._signalCompletion(self._id)] is a method whose body is
    [pass]. *)
Definition run (response : result bytes) (str_e : bytes) : M t unit :=
  _ ← getattr "_msg";
  match response with
  | Raise ROSInterruptException => mret tt
  | Unfinished => λ self, (self, Unfinished)
  | _ =>
    match response with
    | Return buff => setattr "_msg" (VStr buff);;
                     setattr "_completed" (VBool true)
    | _ => setattr "_msg" (VStr str_e);;
           setattr "_error" (VBool true)
    end;;
    _ ← getattr "_hasID";
    signal ← getattr "_signalCompleted";
    if truth signal then
      _ ← getattr "_srv"; _ ← getattr "_id"; mret tt
    else mret tt
  end.

Definition getResult : M t value :=
  setattr "_signalCompleted" (VBool true);;
  completed ← getattr "_completed";
  if truth completed then getattr "_msg"
  else
    error ← getattr "_error";
    if truth error then
      msg ← getattr "_msg";
      match msg with
      | VStr s => Meth.raise (InternalError (String.string_of_list_byte s))
      | _ => Meth.raise (InternalError "")
      end
    else mret VNone.

End ServiceTask.

(** *** The interface itself *)

(** The attributes of an instance. *)
Record t : Type := {
  as_base : InterfaceBase.t;
  srvCls : SrvCls;
  _tasks : gmap bytes loc
}.

(** [__init__(self, cls, interfaceName)] *)
Definition __init__ (rospy : Rospy) (cls interfaceName : bytes) : result t :=
  let super := InterfaceBase.__init__ interfaceName in
  loaded ← try_except (get_service_class rospy cls)
    (λ e, match e with
          | ValueError => Some (Raise SerializationError)
          | _ => None
          end);
  mret {| as_base := super;
          srvCls := {| srv_type := srv_type loaded;
                       _request_class := AnyMsg;
                       _response_class := AnyMsg |};
          _tasks := ∅ |}.

(** [deserialize(cls, data)]: a class method, as in [InterfaceBase].
    The second field is stored in the variable [cls] itself, which from
    then on holds a [str]; the final [cls(cls, name)] calls whatever [cls]
    holds at that point. *)
Definition deserialize {I : Type} (call : value → list value → result I)
    (bo : byte_order) (cls : value) (data : bytes) : result I :=
  '(name, cls) ← try_except
    (let start := 0 in
     let end_ := LEN_I in
     length ← STRUCT_I.unpack bo (slice data start end_);
     let start := end_ in
     let end_ := end_ + N.to_nat length in
     let name := slice data start end_ in
     let start := end_ in
     let end_ := end_ + LEN_I in
     length ← STRUCT_I.unpack bo (slice data start end_);
     let start := end_ in
     let end_ := end_ + N.to_nat length in
     let cls := VStr (slice data start end_) in
     mret (name, cls))
    (λ e, match e with
          | StructError => Some (Raise SerializationError)
          | _ => None
          end);
  call cls [cls; VStr name].

(** A method of the interface runs against the interface, the
    [ServiceTask] objects alive (shared by the registry and by the
    threads that run them), the bound methods [task.run] handed to the
    manager so far, and the identifiers the next calls of
    [generateID()] return. *)
Record state : Type := {
  self : t;
  heap : gmap loc ServiceTask.t;
  threads : list loc;
  generateID : list bytes
}.

Definition with_self (f : t → t) (st : state) : state :=
  {| self := f (self st); heap := heap st; threads := threads st;
     generateID := generateID st |}.

Definition with_heap (f : gmap loc ServiceTask.t → gmap loc ServiceTask.t)
    (st : state) : state :=
  {| self := self st; heap := f (heap st); threads := threads st;
     generateID := generateID st |}.

(** [ServiceInterface.ServiceTask(self, msg)]: a new object on which
    [__init__] runs; when [__init__] raises, nothing refers to the
    object any more. *)
Definition new_ServiceTask (msg : bytes) : M state loc := λ st,
  let task := fresh (dom (heap st)) in
  let srv := VInterface (InterfaceBase.interfaceName (as_base (self st))) in
  match ServiceTask.__init__ srv msg ∅ with
  | (obj, Return _) => (with_heap (insert task obj) st, Return task)
  | (_, Raise e) => (st, Raise e)
  | (_, Unfinished) => (st, Unfinished)
  end.

(** A method call on the task object [task]. *)
Definition on_task {A} (task : loc) (m : M ServiceTask.t A) : M state A :=
  λ st,
  match heap st !! task with
  | Some obj => let '(obj', r) := m obj in
                (with_heap (insert task obj') st, r)
  | None => (st, Raise DanglingReference)
  end.

(** [self._manager.runTaskInSeparateThread(task.run)]: the manager
    has the bound method from then on, whether its call returns or
    raises. *)
Definition runTaskInSeparateThread (task : loc) : M state unit := λ st,
  match InterfaceBase._manager (as_base (self st)) with
  | Some m => ({| self := self st; heap := heap st;
                  threads := threads st ++ [task];
                  generateID := generateID st |},
               runTaskInSeparateThread m)
  | None => (st, Raise (AttributeError "runTaskInSeparateThread"))
  end.

(** The [while True] loop of [_send]: draw an identifier, and under the
    lock insert the task under it if it is not yet a key.  The loop runs
    on the identifiers the generator will supply, and is [None] when
    every one of them is taken. *)
Fixpoint allocate (candidates : list bytes) (tasks : gmap bytes loc)
    (task : loc) : option (bytes * list bytes * gmap bytes loc) :=
  match candidates with
  | [] => None
  | uid :: candidates' =>
    match tasks !! uid with
    | None => Some (uid, candidates', <[uid := task]> tasks)
    | Some _ => allocate candidates' tasks task
    end
  end.

Definition allocate_loop (task : loc) : M state bytes := λ st,
  match allocate (generateID st) (_tasks (self st)) task with
  | Some (uid, candidates', tasks') =>
    ({| self := {| as_base := as_base (self st); srvCls := srvCls (self st);
                   _tasks := tasks' |};
        heap := heap st; threads := threads st;
        generateID := candidates' |}, Return uid)
  | None =>
    ({| self := self st; heap := heap st; threads := threads st;
        generateID := [] |}, Unfinished)
  end.

Definition _send (msg : bytes) : M state bytes :=
  task ← new_ServiceTask msg;
  runTaskInSeparateThread task;;
  uid ← allocate_loop task;
  on_task task (ServiceTask.setID uid);;
  mret uid.

(** [self._tasks[taskID]].  The lock [_tasksLock] orders the accesses of
    different threads to the registry; a method runs here from its first
    statement to its last, so taking and releasing it changes nothing. *)
Definition subscript (taskID : bytes) : M state loc := λ st,
  match _tasks (self st) !! taskID with
  | Some task => (st, Return task)
  | None => (st, Raise KeyError)
  end.

Definition _receive (taskID : bytes) : M state value :=
  msg ← Meth.try_except
    (task ← subscript taskID;
     on_task task ServiceTask.getResult)
    (λ e, match e with
          | KeyError => Some (Meth.raise (InternalError "Invalid taskID used."))
          | _ => None
          end);
  if negb (truth msg) then mret (VStr []) else mret msg.

(** [_signalCompletion]: the body is [pass]. *)
Definition _signalCompletion (taskID : bytes) : M state unit := mret tt.

#[global] Instance interface : InterfaceBase.Interface state := {|
  InterfaceBase.base := λ st, as_base (self st);
  InterfaceBase.with_base := λ b,
    with_self (λ s, {| as_base := b; srvCls := srvCls s; _tasks := _tasks s |});
  InterfaceBase._start := InterfaceBase.default_start;
  InterfaceBase._send := _send;
  InterfaceBase._receive := _receive;
  InterfaceBase._stop := InterfaceBase.default_stop;
  InterfaceBase.base_with_base := λ _ _, eq_refl
|}.

End ServiceInterface.

(** ** [class PublisherInterface(InterfaceBase)] *)

Module PublisherInterface.

(** [_publisher] exists only once [_start] has run; [rospy] is the
    middleware the instance talks to. *)
Record t : Type := {
  as_base : InterfaceBase.t;
  _publisher : attribute (option Publisher);
  rospy : Rospy
}.

Definition __init__ (rospy : Rospy) (interfaceName : bytes) : t :=
  {| as_base := InterfaceBase.__init__ interfaceName;
     _publisher := Missing; rospy := rospy |}.

Definition assign_publisher (p : option Publisher) : M t unit := λ self,
  ({| as_base := as_base self; _publisher := Bound p; rospy := rospy self |},
   Return tt).

Definition _start : M t unit := λ self,
  assign_publisher
    (Some (new_Publisher (rospy self)
             (InterfaceBase.interfaceName (as_base self)) true)) self.

(** [self._publisher.publish(msg)] with [msg._buff = msgData] *)
Definition publisher_publish (msgData : bytes) : M t unit := λ self,
  match _publisher self with
  | Missing => (self, Raise (AttributeError "_publisher"))
  | Bound None => (self, Raise (AttributeError "publish"))
  | Bound (Some p) => (self, publish p msgData)
  end.

Definition _send (msgData : bytes) : M t bytes :=
  Meth.try_except (publisher_publish msgData)
    (λ e, match e with
          | ROSInterruptException => Some (mret tt)
          | ROSSerializationException =>
            Some (Meth.raise (InternalError "Message could not be serialized by ROS."))
          | _ => None
          end);;
  mret [].

Definition _stop : M t unit := λ self,
  match _publisher self with
  | Missing => (self, Raise (AttributeError "_publisher"))
  | Bound None => (self, Raise (AttributeError "unregister"))
  | Bound (Some _) => assign_publisher None self
  end.

#[global] Instance interface : InterfaceBase.Interface t := {|
  InterfaceBase.base := as_base;
  InterfaceBase.with_base := λ b s,
    {| as_base := b; _publisher := _publisher s; rospy := rospy s |};
  InterfaceBase._start := _start;
  InterfaceBase._send := _send;
  InterfaceBase._receive := InterfaceBase.default_receive;
  InterfaceBase._stop := _stop;
  InterfaceBase.base_with_base := λ _ _, eq_refl
|}.

End PublisherInterface.

(** ** [class SubscriberInterface(InterfaceBase)] *)

Module SubscriberInterface.

Record t : Type := {
  as_base : InterfaceBase.t;
  _lastMsg : value;
  _subscriber : attribute (option Subscriber)
}.

Definition __init__ (interfaceName : bytes) : t :=
  {| as_base := InterfaceBase.__init__ interfaceName;
     _lastMsg := VNone; _subscriber := Missing |}.

Definition assign_subscriber (s : option Subscriber) : M t unit := λ self,
  ({| as_base := as_base self; _lastMsg := _lastMsg self;
      _subscriber := Bound s |}, Return tt).

Definition _start : M t unit := λ self,
  assign_subscriber
    (Some {| sub_topic := InterfaceBase.interfaceName (as_base self) |}) self.

Definition _receive (taskID : bytes) : M t value := λ self,
  (self, Return (_lastMsg self)).

Definition _stop : M t unit := λ self,
  match _subscriber self with
  | Missing => (self, Raise (AttributeError "_subscriber"))
  | Bound None => (self, Raise (AttributeError "unregister"))
  | Bound (Some _) => assign_subscriber None self
  end.

(** The delivery callback; [buff] is [msg._buff]. *)
Definition _callbackFunc (buff : bytes) : M t unit := λ self,
  ({| as_base := as_base self; _lastMsg := VStr buff;
      _subscriber := _subscriber self |}, Return tt).

#[global] Instance interface : InterfaceBase.Interface t := {|
  InterfaceBase.base := as_base;
  InterfaceBase.with_base := λ b s,
    {| as_base := b; _lastMsg := _lastMsg s; _subscriber := _subscriber s |};
  InterfaceBase._start := _start;
  InterfaceBase._send := InterfaceBase.default_send;
  InterfaceBase._receive := _receive;
  InterfaceBase._stop := _stop;
  InterfaceBase.base_with_base := λ _ _, eq_refl
|}.

End SubscriberInterface.

(** ** Classes as callable objects *)

(** An instance of one of the four classes. *)
Inductive instance : Type :=
  | IBase (o : InterfaceBase.t)
  | IService (o : ServiceInterface.t)
  | IPublisher (o : PublisherInterface.t)
  | ISubscriber (o : SubscriberInterface.t).

(** [C(args)] for a class [C]: the constructor runs with the [str]
    arguments the docstrings ask for; [PublisherInterface] inherits
    [InterfaceBase.__init__]. *)
Definition construct (rospy : Rospy) (c : class) (args : list value)
    : result instance :=
  match c, args with
  | InterfaceBase_cls, [VStr name] =>
    Return (IBase (InterfaceBase.__init__ name))
  | ServiceInterface_cls, [VStr cls; VStr name] =>
    o ← ServiceInterface.__init__ rospy cls name; mret (IService o)
  | PublisherInterface_cls, [VStr name] =>
    Return (IPublisher (PublisherInterface.__init__ rospy name))
  | SubscriberInterface_cls, [VStr name] =>
    Return (ISubscriber (SubscriberInterface.__init__ name))
  | _, _ => Raise TypeError
  end.

(** [f(args)]: only a class is callable among the objects of this
    module; calling a [str] is a [TypeError]. *)
Definition call (rospy : Rospy) (f : value) (args : list value)
    : result instance :=
  match f with
  | VClass c => construct rospy c args
  | _ => Raise TypeError
  end.

(** ** The sending side of a descriptor *)

(** Modelled from the spec: the serializer is on the sending side of the
    control channel, outside this module.  A field is "a 4-byte length
    field followed by that many UTF-8 bytes"; [field] holds the UTF-8
    bytes. *)
Definition serialize_field (bo : byte_order) (field : bytes) : result bytes :=
  len ← STRUCT_I.pack bo (N.of_nat (length field));
  mret (len ++ field).

(** Modelled from the spec: the descriptor of an interface is the field
    of its name. *)
Definition serialize_interface (bo : byte_order) (name : bytes) : result bytes :=
  serialize_field bo name.

(** Modelled from the spec: "for a service interface, a second
    [length][UTF-8 bytes] pair follows, carrying a service-type
    identifier". *)
Definition serialize_service (bo : byte_order) (name cls : bytes)
    : result bytes :=
  first ← serialize_field bo name;
  second ← serialize_field bo cls;
  mret (first ++ second).

(** Modelled from the spec: a buffer that holds a well-formed field at
    its start, "a 4-byte length field followed by that many" bytes, and
    possibly more after it. *)
Definition well_formed_descriptor (bo : byte_order) (data : bytes) : Prop :=
  ∃ field packed rest,
    serialize_field bo field = Return packed ∧ data = packed ++ rest.

(** ** Concrete scenarios *)

Module Scenario.

(** A middleware in which every service type resolves and every
    publication succeeds. *)
Definition rospy : Rospy := {|
  get_service_class := λ c,
    Return {| srv_type := c; _request_class := Typed c;
              _response_class := Typed c |};
  new_Publisher := λ topic latch,
    {| pub_topic := topic; pub_latch := latch; publish := λ _, Return tt |}
|}.

(** Two managers that are true in a condition and answer every call. *)
Definition manager : Manager := {|
  manager_id := 1; manager_truth := true;
  registerInterface := λ _, Return tt;
  unregisterInterface := λ _, Return tt;
  runTaskInSeparateThread := Return tt
|}.
Definition other_manager : Manager := {|
  manager_id := 2; manager_truth := true;
  registerInterface := λ _, Return tt;
  unregisterInterface := λ _, Return tt;
  runTaskInSeparateThread := Return tt
|}.

(** [SubscriberInterface('scan')], before and after
    [registerManager(manager); start()] and one delivery. *)
Definition subscriber : SubscriberInterface.t :=
  SubscriberInterface.__init__ (bytes_of "scan").

Definition started_subscriber : SubscriberInterface.t :=
  after (SubscriberInterface._callbackFunc (bytes_of "A"))
    (after InterfaceBase.start
       (after (InterfaceBase.registerManager manager) subscriber)).

(** [PublisherInterface('chatter')] after
    [registerManager(manager); start()]. *)
Definition started_publisher : PublisherInterface.t :=
  after InterfaceBase.start
    (after (InterfaceBase.registerManager manager)
       (PublisherInterface.__init__ rospy (bytes_of "chatter"))).

(** A publisher whose middleware handle answers by payload:
    ["interrupt"] is interrupted, ["bad"] fails to serialize. *)
Definition moody : Publisher := {|
  pub_topic := bytes_of "chatter";
  pub_latch := true;
  publish := λ payload,
    if decide (payload = bytes_of "interrupt") then Raise ROSInterruptException
    else if decide (payload = bytes_of "bad") then Raise ROSSerializationException
    else Return tt
|}.

Definition moody_publisher : PublisherInterface.t := {|
  PublisherInterface.as_base :=
    InterfaceBase.set_manager (Some manager)
      (InterfaceBase.__init__ (bytes_of "chatter"));
  PublisherInterface._publisher := Bound (Some moody);
  PublisherInterface.rospy := rospy
|}.

(** [ServiceInterface('pkg/GraspSrv', 'arm/grasp')] with a manager
    registered, no task yet, and a generator about to return ["id-1"],
    ["id-2"]. *)
Definition service_interface : ServiceInterface.t := {|
  ServiceInterface.as_base :=
    InterfaceBase.set_manager (Some manager)
      (InterfaceBase.__init__ (bytes_of "arm/grasp"));
  ServiceInterface.srvCls :=
    {| srv_type := bytes_of "pkg/GraspSrv"; _request_class := AnyMsg;
       _response_class := AnyMsg |};
  ServiceInterface._tasks := ∅
|}.

Definition service : ServiceInterface.state := {|
  ServiceInterface.self := service_interface;
  ServiceInterface.heap := ∅;
  ServiceInterface.threads := [];
  ServiceInterface.generateID := [bytes_of "id-1"; bytes_of "id-2"]
|}.

(** The slots of a task object as the assignments of [__init__] that
    succeed leave them: request stored, neither completed nor errored. *)
Definition pending_task : ServiceInterface.ServiceTask.t :=
  after (ServiceInterface.ServiceTask.__init__
           (VInterface (bytes_of "arm/grasp")) (bytes_of "request")) ∅.

(** The same object after [run] got the response ["response"] from the
    remote service. *)
Definition completed_task : ServiceInterface.ServiceTask.t :=
  after (ServiceInterface.ServiceTask.run (Return (bytes_of "response")) [])
    pending_task.

(** A service interface whose registry holds [task], with ["id-1"] in
    its [_id] slot, under ["id-1"]. *)
Definition service_with (task : ServiceInterface.ServiceTask.t)
    : ServiceInterface.state := {|
  ServiceInterface.self := {|
    ServiceInterface.as_base := ServiceInterface.as_base service_interface;
    ServiceInterface.srvCls := ServiceInterface.srvCls service_interface;
    ServiceInterface._tasks := {[ bytes_of "id-1" := 0 ]}
  |};
  ServiceInterface.heap :=
    {[ 0 := after (ServiceInterface.ServiceTask.setattr "_id"
                     (VStr (bytes_of "id-1"))) task ]};
  ServiceInterface.threads := [0];
  ServiceInterface.generateID := [bytes_of "id-2"]
|}.

(** A length prefix announcing five bytes, followed by three. *)
Definition truncated_descriptor : bytes :=
  STRUCT_I.encode 5 ++ bytes_of "abc".

End Scenario.

(** ** Driving an interface through its public methods *)

(** A call of one of the public methods of [InterfaceBase]. *)
Inductive op : Type :=
  | RegisterManager (m : Manager)
  | Start
  | Send (msg : bytes)
  | Receive (taskID : bytes)
  | Stop.

(** The instance after the call, whether the call returned or raised. *)
Definition step {S : Type} `{!InterfaceBase.Interface S} (o : op) (self : S)
    : S :=
  match o with
  | RegisterManager m => after (InterfaceBase.registerManager m) self
  | Start => after InterfaceBase.start self
  | Send msg => after (InterfaceBase.send msg) self
  | Receive taskID => after (InterfaceBase.receive taskID) self
  | Stop => after InterfaceBase.stop self
  end.

(** The instance after a sequence of calls by a caller that carries on
    after an exception. *)
Definition drive {S : Type} `{!InterfaceBase.Interface S} (ops : list op)
    (self : S) : S :=
  foldl (λ self o, step o self) self ops.

(** A method that leaves the attributes of [InterfaceBase] alone, and a
    class all of whose hooks do. *)
Definition keeps_base {S A : Type} `{!InterfaceBase.Interface S} (m : M S A)
    : Prop :=
  ∀ self, InterfaceBase.base (after m self) = InterfaceBase.base self.

Definition hooks_keep_base (S : Type) `{!InterfaceBase.Interface S} : Prop :=
  keeps_base InterfaceBase._start
  ∧ (∀ msg, keeps_base (InterfaceBase._send msg))
  ∧ (∀ taskID, keeps_base (InterfaceBase._receive taskID))
  ∧ keeps_base InterfaceBase._stop.

(** The calls that register a manager. *)
Definition registers (o : op) : bool :=
  match o with
  | RegisterManager _ => true
  | _ => false
  end.

(** A ready publisher holds a middleware handle and has a manager. *)
Definition ready_with_handle (self : PublisherInterface.t) : Prop :=
  InterfaceBase.ready (PublisherInterface.as_base self) = true →
  (∃ p, PublisherInterface._publisher self = Bound (Some p))
  ∧ is_Some (InterfaceBase._manager (PublisherInterface.as_base self)).

(** A publisher that is not ready holds no handle: the attribute is
    absent or [None]. *)
Definition idle_without_handle (self : PublisherInterface.t) : Prop :=
  InterfaceBase.ready (PublisherInterface.as_base self) = false →
  PublisherInterface._publisher self = Missing
  ∨ PublisherInterface._publisher self = Bound None.

(** A call that registers, if anything, a manager whose
    [registerInterface] returns for the interface called [name]. *)
Definition cooperative (name : bytes) (o : op) : Prop :=
  match o with
  | RegisterManager m => registerInterface m name = Return tt
  | _ => True
  end.

(** The manager a publisher holds, if any, lets an interface called
    [name] register. *)
Definition manager_cooperates (name : bytes) (self : PublisherInterface.t)
    : Prop :=
  InterfaceBase.interfaceName (PublisherInterface.as_base self) = name
  ∧ ∀ m, InterfaceBase._manager (PublisherInterface.as_base self) = Some m →
         registerInterface m name = Return tt.

(** The subscriber after the middleware has delivered the messages with
    the buffers [buffs], in that order. *)
Definition deliver (buffs : list bytes) (self : SubscriberInterface.t)
    : SubscriberInterface.t :=
  foldl (λ self buff, after (SubscriberInterface._callbackFunc buff) self)
        self buffs.

(** A method that keeps a property of the object, whether it returns or
    raises. *)
Definition keeps {S A : Type} (P : S → Prop) (m : M S A) : Prop :=
  ∀ self, P self → P (after m self).

(** A task object that stores nothing but slots. *)
Definition slots_only (obj : ServiceInterface.ServiceTask.t) : Prop :=
  ∀ name, is_Some (obj !! name) → name ∈ ServiceInterface.ServiceTask.__slots__.

(** ** The echo server of [clients/debugConnection/binaryMsgTestServer.py] *)

Module CloudEngineProtocol.

(** What a handler does to the outside: a line printed, or a frame handed
    to [sendMessage(payload, binary)] ([binary] is [False] when it is not
    given). *)
Inductive event : Type :=
  | Print (line : bytes)
  | SendMessage (payload : bytes) (binary : bool).

(** A string between double quotes. *)
Definition quoted (s : string) : bytes := [x22] ++ bytes_of s ++ [x22].

(** The text of [JSONImageMsg] up to the identifier spliced into it. *)
Definition JSON_head : bytes :=
  bytes_of "{" ++ quoted "type" ++ bytes_of ":" ++ quoted "CM"
  ++ bytes_of "," ++ quoted "dest" ++ bytes_of ":" ++ quoted "robotUniqueID"
  ++ bytes_of "," ++ quoted "orig" ++ bytes_of ":" ++ quoted "containerTag01"
  ++ bytes_of "," ++ quoted "data" ++ bytes_of ":{"
  ++ quoted "type" ++ bytes_of ":" ++ quoted "sensor_msgs/Image"
  ++ bytes_of "," ++ quoted "msgID" ++ bytes_of ":" ++ quoted "msgID_0"
  ++ bytes_of "," ++ quoted "interfaceTag" ++ bytes_of ":"
  ++ quoted "Test/modifyImage"
  ++ bytes_of "," ++ quoted "msg" ++ bytes_of ":{" ++ quoted "data"
  ++ bytes_of ":".

(** [onMessage(self, msg, binary)]; [tmpUUID] is what [uuid.uuid4().hex]
    returns in this call.  [msg[:32]] is [take 32 msg] and [msg[32:]] is
    [drop 32 msg]. *)
Definition onMessage (tmpUUID : bytes) (msg : bytes) (binary : bool)
    : list event :=
  if binary then
    [Print (bytes_of "UUID -> " ++ take 32 msg);
     Print (bytes_of "UUID <- " ++ tmpUUID);
     SendMessage (JSON_head ++ tmpUUID ++ bytes_of "}}}") false;
     SendMessage (tmpUUID ++ drop 32 msg) true]
  else [Print msg].

Definition onOpen : list event := [Print (bytes_of "connection made.")].

(** The frames sent, in order, as [(payload, binary)]. *)
Definition frames (events : list event) : list (bytes * bool) :=
  omap (λ e, match e with
             | SendMessage payload binary => Some (payload, binary)
             | Print _ => None
             end) events.

End CloudEngineProtocol.

(** Further concrete inputs. *)
Module Cases.

(** A task object with the request stored and the text of a diagnostic. *)
Definition diagnostic : bytes := bytes_of "service unavailable".

(** Three identifiers of which the first two are taken in [taken]. *)
Definition taken : gmap bytes loc :=
  {[ bytes_of "id-1" := 0; bytes_of "id-2" := 1 ]}.

Definition candidates : list bytes :=
  [bytes_of "id-1"; bytes_of "id-2"; bytes_of "id-3"; bytes_of "id-4"].

(** A middleware in which no service type resolves. *)
Definition rospy_without_services : Rospy := {|
  get_service_class := λ _, Raise ValueError;
  new_Publisher := new_Publisher Scenario.rospy
|}.

(** A manager that is false in a condition (its class has a [__len__]
    that returns 0, say). *)
Definition false_manager : Manager := {|
  manager_id := 3; manager_truth := false;
  registerInterface := λ _, Return tt;
  unregisterInterface := λ _, Return tt;
  runTaskInSeparateThread := Return tt
|}.

(** A manager that is true in a condition and whose [registerInterface]
    and [unregisterInterface] raise. *)
Definition refusing_manager : Manager := {|
  manager_id := 4; manager_truth := true;
  registerInterface := λ _, Raise ValueError;
  unregisterInterface := λ _, Raise ValueError;
  runTaskInSeparateThread := Return tt
|}.

(** Thirty-two hexadecimal digits. *)
Definition uuid : bytes := bytes_of "0123456789abcdef0123456789abcdef".

End Cases.

Import Scenario Cases.

(** * Properties *)

(** ** The length field *)

Lemma to_N_byte_of_N (n : N) :
  Byte.to_N (STRUCT_I.byte_of_N n) = (n mod 256)%N.
Proof.
  unfold STRUCT_I.byte_of_N.
  destruct (Byte.of_N (n mod 256)) as [c|] eqn:E.
  - simpl. by apply Byte.to_of_N.
  - apply Byte.of_N_None_iff in E.
    pose proof (N.mod_upper_bound n 256). lia.
Qed.

Lemma decode_encode (n : N) :
  (n < 4294967296)%N → STRUCT_I.decode (STRUCT_I.encode n) = n.
Proof.
  intros Hn. unfold STRUCT_I.decode, STRUCT_I.encode. simpl.
  rewrite !to_N_byte_of_N.
  change 16777216%N with (256 * 65536)%N.
  change 65536%N with (256 * 256)%N.
  rewrite <- !N.Div0.div_div by lia.
  set (q1 := (n / 256)%N). set (q2 := (q1 / 256)%N). set (q3 := (q2 / 256)%N).
  assert (q3 < 256)%N as H3.
  { subst q3 q2 q1. do 3 apply N.Div0.div_lt_upper_bound. lia. }
  rewrite (N.mod_small q3) by lia.
  pose proof (N.div_mod q2 256) as E2. pose proof (N.div_mod q1 256) as E1.
  pose proof (N.div_mod n 256) as E0. fold q1 in E0. fold q2 in E1.
  fold q3 in E2. lia.
Qed.

Lemma arrange_involutive (bo : byte_order) (s : bytes) :
  STRUCT_I.arrange bo (STRUCT_I.arrange bo s) = s.
Proof. destruct bo; simpl; [done | apply reverse_involutive]. Qed.

Lemma length_arrange (bo : byte_order) (s : bytes) :
  length (STRUCT_I.arrange bo s) = length s.
Proof. destruct bo; simpl; [done | apply length_reverse]. Qed.

Lemma pack_length (bo : byte_order) (n : N) (packed : bytes) :
  STRUCT_I.pack bo n = Return packed → length packed = LEN_I.
Proof.
  unfold STRUCT_I.pack. case_decide; [|done].
  intros [= <-]. by rewrite length_arrange.
Qed.

Lemma decode_pack (bo : byte_order) (n : N) (packed : bytes) :
  STRUCT_I.pack bo n = Return packed →
  STRUCT_I.decode (STRUCT_I.arrange bo packed) = n.
Proof.
  unfold STRUCT_I.pack. case_decide; [|done].
  intros [= <-]. by rewrite arrange_involutive, decode_encode.
Qed.

Lemma unpack_pack (bo : byte_order) (n : N) (packed : bytes) :
  STRUCT_I.pack bo n = Return packed → STRUCT_I.unpack bo packed = Return n.
Proof.
  intros Hp. unfold STRUCT_I.unpack.
  rewrite decide_True by by eapply pack_length.
  by rewrite (decode_pack _ _ _ Hp).
Qed.

(** ** Slices *)

Lemma slice_prefix (data : bytes) (n : nat) : slice data 0 n = take n data.
Proof. unfold slice. by rewrite Nat.sub_0_r, drop_0. Qed.

Lemma slice_from (data : bytes) (start n : nat) :
  slice data start (start + n) = take n (drop start data).
Proof. unfold slice. f_equal. lia. Qed.

Lemma slice_field (prefix field rest : bytes) :
  slice (prefix ++ field ++ rest) (length prefix)
        (length prefix + length field) = field.
Proof.
  rewrite slice_from, drop_app_length. by rewrite take_app_length.
Qed.

Lemma slice_at (pre field post : bytes) (start stop : nat) :
  start = length pre → stop = start + length field →
  slice (pre ++ field ++ post) start stop = field.
Proof. intros -> ->. apply slice_field. Qed.

Lemma unpack_prefix (bo : byte_order) (data : bytes) :
  STRUCT_I.unpack bo (slice data 0 LEN_I) =
    if decide (length data < LEN_I) then Raise StructError
    else Return (STRUCT_I.decode (STRUCT_I.arrange bo (take LEN_I data))).
Proof.
  rewrite slice_prefix. unfold STRUCT_I.unpack. rewrite length_take.
  repeat case_decide; try done; lia.
Qed.

(** ** Descriptors *)

Section Descriptors.
Context (rospy : Rospy) (bo : byte_order).

(** What [InterfaceBase.deserialize] does with any buffer: the only
    [struct.error] is the one of a buffer too short for the length
    field; the slice that takes the name never fails. *)
Lemma InterfaceBase_deserialize_cases (cls : value) (data : bytes) :
  InterfaceBase.deserialize (call rospy) bo cls data =
    if decide (length data < LEN_I) then Raise SerializationError
    else call rospy cls
           [VStr (take (N.to_nat (STRUCT_I.decode
                                    (STRUCT_I.arrange bo (take LEN_I data))))
                       (drop LEN_I data))].
Proof.
  unfold InterfaceBase.deserialize. rewrite unpack_prefix.
  case_decide; [done|].
  cbn [mbind result_bind mret result_ret try_except].
  by rewrite slice_from.
Qed.

Lemma serialize_field_inv (field packed : bytes) :
  serialize_field bo field = Return packed →
  ∃ len, STRUCT_I.pack bo (N.of_nat (length field)) = Return len
         ∧ packed = len ++ field.
Proof.
  unfold serialize_field.
  destruct (STRUCT_I.pack bo (N.of_nat (length field))) as [len| |] eqn:E;
    simpl; [|done..].
  intros [= <-]. eauto.
Qed.

(** Reading back a serialized name, whatever follows it in the buffer. *)
Lemma InterfaceBase_deserialize_serialize (cls : value)
    (name data rest : bytes) :
  serialize_interface bo name = Return data →
  InterfaceBase.deserialize (call rospy) bo cls (data ++ rest) =
    call rospy cls [VStr name].
Proof.
  intros (len & Hpack & ->)%serialize_field_inv.
  pose proof (pack_length _ _ _ Hpack) as Hlen.
  rewrite InterfaceBase_deserialize_cases.
  rewrite decide_False by (rewrite !length_app; lia).
  rewrite <- (assoc_L (++)), <- Hlen.
  rewrite take_app_length, drop_app_length.
  rewrite (decode_pack _ _ _ Hpack), Nat2N.id.
  by rewrite take_app_length.
Qed.

(** [ServiceInterface.deserialize] returns no instance, whatever the
    buffer and whatever class it is called on: either a length field is
    cut short, or the call at the end finds a [str] in [cls]. *)
Lemma ServiceInterface_deserialize_cases (cls : value) (data : bytes) :
  ServiceInterface.deserialize (call rospy) bo cls data = Raise SerializationError
  ∨ ServiceInterface.deserialize (call rospy) bo cls data = Raise TypeError.
Proof.
  unfold ServiceInterface.deserialize, STRUCT_I.unpack.
  repeat first
    [ case_decide
    | progress cbn [mbind result_bind mret result_ret try_except call] ];
    auto.
Qed.

(** A serialized service descriptor always ends in the call of a [str]. *)
Lemma ServiceInterface_deserialize_serialize (cls0 : value)
    (name cls data : bytes) :
  serialize_service bo name cls = Return data →
  ServiceInterface.deserialize (call rospy) bo cls0 data = Raise TypeError.
Proof.
  unfold serialize_service.
  destruct (serialize_field bo name) as [first| |] eqn:E1; [|done..].
  destruct (serialize_field bo cls) as [second| |] eqn:E2; [|done..].
  cbn [mbind result_bind mret result_ret]. intros [= <-].
  apply serialize_field_inv in E1 as (len1 & Hp1 & ->).
  apply serialize_field_inv in E2 as (len2 & Hp2 & ->).
  pose proof (pack_length _ _ _ Hp1) as Hl1.
  pose proof (pack_length _ _ _ Hp2) as Hl2.
  set (data := (len1 ++ name) ++ len2 ++ cls).
  assert (slice data 0 LEN_I = len1) as Hfirst.
  { subst data. rewrite <- (assoc_L (++)).
    apply (slice_at [] len1 (name ++ len2 ++ cls)); [done|].
    by rewrite Hl1. }
  assert (slice data (LEN_I + length name) (LEN_I + length name + LEN_I)
          = len2) as Hsecond.
  { subst data. apply (slice_at (len1 ++ name) len2 cls).
    - by rewrite length_app, Hl1.
    - by rewrite Hl2. }
  unfold ServiceInterface.deserialize.
  rewrite Hfirst, (unpack_pack _ _ _ Hp1).
  cbn [mbind result_bind mret result_ret]. rewrite Nat2N.id.
  rewrite Hsecond, (unpack_pack _ _ _ Hp2).
  by cbn [mbind result_bind mret result_ret try_except call].
Qed.

End Descriptors.

Lemma not_well_formed_truncated :
  ¬ well_formed_descriptor BigEndian truncated_descriptor.
Proof.
  intros (field & packed & rest & Hser & Hdata).
  apply serialize_field_inv in Hser as (len & Hpack & ->).
  pose proof (pack_length _ _ _ Hpack) as Hlen.
  pose proof (decode_pack _ _ _ Hpack) as Hdec. simpl in Hdec.
  assert (len = take LEN_I truncated_descriptor) as Hl.
  { rewrite Hdata, <- !(assoc_L (++)), <- Hlen. by rewrite take_app_length. }
  rewrite Hl in Hdec.
  change (STRUCT_I.decode (take LEN_I truncated_descriptor)) with 5%N in Hdec.
  apply (f_equal length) in Hdata. rewrite !length_app, Hlen in Hdata.
  change (length truncated_descriptor) with 7 in Hdata.
  unfold LEN_I in Hdata. lia.
Qed.



(** C3: the round trip holds for an interface name (["camera/image"]),
    but not for a service descriptor: deserializing the serialized pair
    (["arm/grasp"], ["pkg/GraspSrv"]) raises [TypeError] instead of
    yielding a [ServiceInterface], because [deserialize] has stored the
    second field in [cls] by the time it calls [cls(cls, name)]. *)
Theorem service_descriptor_round_trip_fails (rospy : Rospy) (bo : byte_order) :
  (serialize_interface bo (bytes_of "camera/image")
     ≫= InterfaceBase.deserialize (call rospy) bo (VClass InterfaceBase_cls))
  = Return (IBase (InterfaceBase.__init__ (bytes_of "camera/image")))
  ∧
  (serialize_service bo (bytes_of "arm/grasp") (bytes_of "pkg/GraspSrv")
     ≫= ServiceInterface.deserialize (call rospy) bo (VClass ServiceInterface_cls))
  = Raise TypeError.
Proof. destruct bo; split; reflexivity. Qed.

(** C10, as stated, fails: a buffer whose length field announces five
    bytes and which carries only three is not well formed, and
    [InterfaceBase.deserialize] returns an Interface named by the three
    bytes. *)
Lemma truncated_descriptor_accepted :
  ¬ well_formed_descriptor BigEndian truncated_descriptor
  ∧ InterfaceBase.deserialize (call Scenario.rospy) BigEndian
      (VClass InterfaceBase_cls) truncated_descriptor
    = Return (IBase (InterfaceBase.__init__ (bytes_of "abc")))
  ∧ InterfaceBase.deserialize (call Scenario.rospy) BigEndian
      (VClass InterfaceBase_cls) truncated_descriptor
    ≠ Raise SerializationError.
Proof. split; [apply not_well_formed_truncated | split; [reflexivity | done]]. Qed.

(** C10, amended: [InterfaceBase.deserialize] raises [SerializationError]
    exactly for the buffers shorter than the 4-byte length field; for
    every other buffer it returns an Interface whose name is made of the
    bytes that follow the length field, at most as many as the field
    announces. *)
Theorem deserialize_rejects_short_buffers_only (rospy : Rospy)
    (bo : byte_order) (data : bytes) :
  InterfaceBase.deserialize (call rospy) bo (VClass InterfaceBase_cls) data =
    if decide (length data < LEN_I) then Raise SerializationError
    else Return (IBase (InterfaceBase.__init__
           (take (N.to_nat (STRUCT_I.decode
                              (STRUCT_I.arrange bo (take LEN_I data))))
                 (drop LEN_I data)))).
Proof. by rewrite InterfaceBase_deserialize_cases. Qed.

(** ** The readiness guard and manager registration *)

Section Base.
Context {S : Type} `{!InterfaceBase.Interface S}.
Import InterfaceBase.

Lemma send_when_ready (self : S) (msg : bytes) :
  ready (base self) = true →
  send msg self =
    (self, Raise (InternalError "Interface is not ready to send a message.")).
Proof. unfold send. by intros ->. Qed.

Lemma send_when_not_ready (self : S) (msg : bytes) :
  ready (base self) = false → send msg self = _send msg self.
Proof. unfold send. by intros ->. Qed.

Lemma receive_when_ready (self : S) (taskID : bytes) :
  ready (base self) = true →
  receive taskID self =
    (self, Raise (InternalError "Interface is not ready to receive a message.")).
Proof. unfold receive. by intros ->. Qed.

Lemma receive_when_not_ready (self : S) (taskID : bytes) :
  ready (base self) = false → receive taskID self = _receive taskID self.
Proof. unfold receive. by intros ->. Qed.

Lemma registerManager_untrue (self : S) (m : Manager) :
  truth_manager (_manager (base self)) = false →
  registerManager m self =
    (with_base (set_manager (Some m) (base self)) self, Return tt).
Proof. unfold registerManager. by intros ->. Qed.

Lemma registerManager_unbound (self : S) (m : Manager) :
  _manager (base self) = None →
  registerManager m self =
    (with_base (set_manager (Some m) (base self)) self, Return tt).
Proof. intros Hm. apply registerManager_untrue. by rewrite Hm. Qed.

Lemma registerManager_bound (self : S) (m m' : Manager) :
  _manager (base self) = Some m → manager_truth m = true →
  registerManager m' self =
    (self, Raise (InternalError "There is already a manager registered.")).
Proof. unfold registerManager. intros -> Ht. simpl. by rewrite Ht. Qed.

Lemma registerManager_again (self : S) (m : Manager) (later : list Manager) :
  _manager (base self) = Some m → manager_truth m = true →
  run_all (registerManager <$> later) self =
    (self, (λ _, Raise (InternalError "There is already a manager registered."))
             <$> later).
Proof.
  intros Hm Ht. induction later as [|m' later IH]; [done|].
  rewrite !fmap_cons. cbn [run_all].
  by rewrite (registerManager_bound _ m), IH.
Qed.


End Base.



(** C1: the guard of [send] and [receive] works the other way round.  A
    started publisher is ready and its [_send] hook returns [''], yet
    [send] raises the "not ready" [InternalError]; a subscriber that was
    never started is not ready, yet [receive] goes through to the hook and
    returns [None]; once started, with a message delivered, [receive]
    raises the "not ready" [InternalError]. *)
Theorem readiness_guard_is_inverted :
  InterfaceBase.ready (InterfaceBase.base started_publisher) = true
  ∧ outcome (InterfaceBase._send (bytes_of "hello")) started_publisher
    = Return []
  ∧ outcome (InterfaceBase.send (bytes_of "hello")) started_publisher
    = Raise (InternalError "Interface is not ready to send a message.")
  ∧ InterfaceBase.ready (InterfaceBase.base subscriber) = false
  ∧ outcome (InterfaceBase.receive []) subscriber = Return VNone
  ∧ InterfaceBase.ready (InterfaceBase.base started_subscriber) = true
  ∧ outcome (InterfaceBase._receive []) started_subscriber
    = Return (VStr (bytes_of "A"))
  ∧ outcome (InterfaceBase.receive []) started_subscriber
    = Raise (InternalError "Interface is not ready to receive a message.").
Proof. repeat split; reflexivity. Qed.

(** ** Service tasks *)

Section Tasks.
Import ServiceInterface.

Lemma setattr_slot (name : string) (v : value) (obj : ServiceTask.t) :
  name ∈ ServiceTask.__slots__ →
  ServiceTask.setattr name v obj = (<[name := v]> obj, Return tt).
Proof. intros H. unfold ServiceTask.setattr. by rewrite decide_True. Qed.

Lemma setattr_no_slot (name : string) (v : value) (obj : ServiceTask.t) :
  name ∉ ServiceTask.__slots__ →
  ServiceTask.setattr name v obj = (obj, Raise (AttributeError name)).
Proof. intros H. unfold ServiceTask.setattr. by rewrite decide_False. Qed.

Lemma no_slot_hasID : "_hasID" ∉ ServiceTask.__slots__.
Proof. by_decide. Qed.

Lemma no_slot_signalCompletion : "_signalCompletion" ∉ ServiceTask.__slots__.
Proof. by_decide. Qed.

Lemma no_slot_signalCompleted : "_signalCompleted" ∉ ServiceTask.__slots__.
Proof. by_decide. Qed.

(** [__init__] gets as far as the assignment to [_hasID]. *)
Lemma ServiceTask_init_raises (srv : value) (msg : bytes) (obj : ServiceTask.t) :
  outcome (ServiceTask.__init__ srv msg) obj = Raise (AttributeError "_hasID").
Proof.
  unfold outcome, ServiceTask.__init__, mbind, meth_bind, Meth.bind.
  rewrite !setattr_slot by by_decide.
  by rewrite setattr_no_slot by apply no_slot_hasID.
Qed.

Lemma new_ServiceTask_raises (msg : bytes) (st : state) :
  new_ServiceTask msg st = (st, Raise (AttributeError "_hasID")).
Proof.
  unfold new_ServiceTask.
  pose proof (ServiceTask_init_raises
    (VInterface (InterfaceBase.interfaceName (as_base (self st)))) msg ∅) as H.
  unfold outcome in H.
  destruct (ServiceTask.__init__ _ msg ∅) as [obj r]. simpl in H. by subst r.
Qed.

Lemma Service_send_raises (msg : bytes) (st : state) :
  _send msg st = (st, Raise (AttributeError "_hasID")).
Proof.
  unfold _send, mbind, meth_bind, Meth.bind.
  by rewrite new_ServiceTask_raises.
Qed.

Lemma Service_send_all_raise (msgs : list bytes) (st : state) :
  run_all (_send <$> msgs) st =
    (st, (λ _, Raise (AttributeError "_hasID")) <$> msgs).
Proof.
  induction msgs as [|msg msgs IH]; [done|].
  rewrite !fmap_cons. cbn [run_all]. by rewrite Service_send_raises, IH.
Qed.

(** [getResult] gets as far as its first statement. *)
Lemma getResult_raises (obj : ServiceTask.t) :
  ServiceTask.getResult obj = (obj, Raise (AttributeError "_signalCompleted")).
Proof.
  unfold ServiceTask.getResult, mbind, meth_bind, Meth.bind.
  by rewrite setattr_no_slot by apply no_slot_signalCompleted.
Qed.

Lemma with_heap_insert_id (st : state) (task : loc) (obj : ServiceTask.t) :
  heap st !! task = Some obj → with_heap (insert task obj) st = st.
Proof.
  intros H. destruct st as [s h t g]. unfold with_heap. simpl in *.
  by rewrite insert_id.
Qed.

Lemma Service_receive_registered (st : state) (taskID : bytes) (task : loc)
    (obj : ServiceTask.t) :
  _tasks (self st) !! taskID = Some task →
  heap st !! task = Some obj →
  _receive taskID st = (st, Raise (AttributeError "_signalCompleted")).
Proof.
  intros Ht Ho.
  unfold _receive, mbind, meth_bind, Meth.bind, Meth.try_except,
    subscript, on_task.
  rewrite Ht, Ho, getResult_raises. by rewrite with_heap_insert_id.
Qed.

(** The allocation loop, when it is reached and ends: the identifier it
    settles on was not a key, the task is stored under it, and nothing
    else in the registry changes. *)
Lemma allocate_fresh (candidates candidates' : list bytes)
    (tasks tasks' : gmap bytes loc) (task : loc) (uid : bytes) :
  allocate candidates tasks task = Some (uid, candidates', tasks') →
  tasks !! uid = None ∧ tasks' = <[uid := task]> tasks.
Proof.
  induction candidates as [|c candidates IH]; [done|]. simpl.
  destruct (tasks !! c) eqn:E; [done|]. by intros [= <- <- <-].
Qed.

(** The loop ends as soon as the generator supplies a free identifier. *)
Lemma allocate_ends (candidates : list bytes) (tasks : gmap bytes loc)
    (task : loc) :
  (∃ uid, uid ∈ candidates ∧ tasks !! uid = None) →
  is_Some (allocate candidates tasks task).
Proof.
  intros (uid & Hin & Hfree).
  induction candidates as [|c candidates IH]; [by apply elem_of_nil in Hin|].
  simpl. destruct (tasks !! c) eqn:E; [|done].
  apply IH. apply elem_of_cons in Hin as [->|]; [congruence | done].
Qed.

(** C2: [_hasID] and [_signalCompletion] are no slots of
    [ServiceTask]; [ServiceTask.__init__] therefore raises
    [AttributeError] on every object, request and interface; and
    [_send] raises it for every payload, leaving the interface as it
    was: no token is returned, no task registered, none dispatched. *)
Theorem ServiceInterface_send_always_raises (st : state) (msg : bytes) :
  (("_hasID" ∉ ServiceTask.__slots__)
   ∧ ("_signalCompletion" ∉ ServiceTask.__slots__))
  ∧ (∀ srv obj,
       outcome (ServiceTask.__init__ srv msg) obj
       = Raise (AttributeError "_hasID"))
  ∧ _send msg st = (st, Raise (AttributeError "_hasID")).
Proof.
  split; [split; [apply no_slot_hasID | apply no_slot_signalCompletion]|].
  split; [intros; apply ServiceTask_init_raises | apply Service_send_raises].
Qed.

(** C4: after two [_send] calls on an interface with an empty registry
    and a generator about to return two distinct identifiers, both calls
    have raised [AttributeError] and the registry holds no token at all,
    not two. *)
Theorem send_registers_no_token :
  run_all [_send (bytes_of "first"); _send (bytes_of "second")] service
  = (service, [Raise (AttributeError "_hasID"); Raise (AttributeError "_hasID")])
  ∧ size (_tasks (self (run_all [_send (bytes_of "first");
                                  _send (bytes_of "second")] service).1)) = 0.
Proof.
  pose proof (Service_send_all_raise [bytes_of "first"; bytes_of "second"] service) as H.
  rewrite !fmap_cons, fmap_nil in H. rewrite H. by split.
Qed.

(** C5: [_receive] with a token that is no key of the registry raises
    [InternalError], and the interface is as it was. *)
Theorem receive_unknown_token (st : state) (taskID : bytes) :
  _tasks (self st) !! taskID = None →
  _receive taskID st = (st, Raise (InternalError "Invalid taskID used.")).
Proof.
  intros Ht.
  unfold _receive, mbind, meth_bind, Meth.bind, Meth.try_except, subscript.
  by rewrite Ht.
Qed.

End Tasks.

Lemma receive_unknown_token_witness :
  ServiceInterface._tasks (ServiceInterface.self (service_with completed_task))
    !! bytes_of "id-7" = None
  ∧ ServiceInterface._receive (bytes_of "id-7") (service_with completed_task)
    = (service_with completed_task, Raise (InternalError "Invalid taskID used.")).
Proof.
  split; [vm_compute; reflexivity|].
  apply (receive_unknown_token (service_with completed_task) (bytes_of "id-7")).
  vm_compute; reflexivity.
Defined.

(** ** Publishing *)

Section Publishing.
Import PublisherInterface.

Lemma Publisher_send_outcome (self : t) (p : Publisher) (payload : bytes) :
  _publisher self = Bound (Some p) →
  _send payload self =
    (self,
     match publish p payload with
     | Return _ | Raise ROSInterruptException => Return []
     | Raise ROSSerializationException =>
       Raise (InternalError "Message could not be serialized by ROS.")
     | Raise e => Raise e
     | Unfinished => Unfinished
     end).
Proof.
  intros Hp.
  unfold _send, mbind, meth_bind, Meth.bind, Meth.try_except,
    publisher_publish.
  rewrite Hp. by destruct (publish p payload) as [[]|[]|].
Qed.

Lemma Publisher_send_returns_empty (self self' : t) (payload tok : bytes) :
  _send payload self = (self', Return tok) → tok = [].
Proof.
  unfold _send, mbind, meth_bind, Meth.bind, Meth.try_except,
    publisher_publish.
  destruct (_publisher self) as [|[p|]]; [done| |done].
  destruct (publish p payload) as [[]|[]|];
    unfold mret, meth_ret, Meth.ret, Meth.raise; congruence.
Qed.


End Publishing.



(** * Further properties *)

(** ** The hooks of the four classes leave the base attributes alone *)

Lemma Base_hooks_keep_base : hooks_keep_base InterfaceBase.t.
Proof. by repeat split. Qed.

Lemma Subscriber_hooks_keep_base : hooks_keep_base SubscriberInterface.t.
Proof.
  repeat split; try done.
  intros self. unfold after. simpl. unfold SubscriberInterface._stop.
  by destruct (SubscriberInterface._subscriber self) as [|[]].
Qed.

Lemma Publisher_hooks_keep_base : hooks_keep_base PublisherInterface.t.
Proof.
  repeat split; try done.
  - intros msg self. unfold after. simpl.
    unfold PublisherInterface._send, mbind, meth_bind, Meth.bind,
      Meth.try_except, PublisherInterface.publisher_publish.
    destruct (PublisherInterface._publisher self) as [|[p|]]; try done.
    by destruct (publish p msg) as [[]|[]|].
  - intros self. unfold after. simpl. unfold PublisherInterface._stop.
    by destruct (PublisherInterface._publisher self) as [|[]].
Qed.

(** [_receive] of a service interface raises in every state, and leaves
    the state as it was. *)
Lemma Service_receive_raises (st : ServiceInterface.state) (taskID : bytes) :
  ∃ e, ServiceInterface._receive taskID st = (st, Raise e).
Proof.
  destruct (ServiceInterface._tasks (ServiceInterface.self st) !! taskID)
    as [task|] eqn:Et.
  - destruct (ServiceInterface.heap st !! task) as [obj|] eqn:Eo.
    + eexists. by eapply Service_receive_registered.
    + exists DanglingReference.
      unfold ServiceInterface._receive, mbind, meth_bind, Meth.bind,
        Meth.try_except, ServiceInterface.subscript, ServiceInterface.on_task.
      by rewrite Et, Eo.
  - exists (InternalError "Invalid taskID used.").
    unfold ServiceInterface._receive, mbind, meth_bind, Meth.bind,
      Meth.try_except, ServiceInterface.subscript.
    by rewrite Et.
Qed.

Lemma Service_hooks_keep_base : hooks_keep_base ServiceInterface.state.
Proof.
  split; [done|]. split; [|split; [|done]].
  - intros msg st. unfold after.
    change (InterfaceBase._send msg st) with (ServiceInterface._send msg st).
    by rewrite Service_send_raises.
  - intros taskID st. unfold after.
    change (InterfaceBase._receive taskID st)
      with (ServiceInterface._receive taskID st).
    by destruct (Service_receive_raises st taskID) as [e ->].
Qed.

(** ** The life cycle of an interface *)

Section LifeCycle.
Context {S : Type} `{!InterfaceBase.Interface S}.
Context (Hhooks : hooks_keep_base S).
Import InterfaceBase.

Lemma start_unfold_ready (self : S) :
  truth_manager (_manager (base self)) = true → ready (base self) = true →
  start self = (self, Return tt).
Proof. unfold start. by intros -> ->. Qed.

Lemma start_unfold_hooks (self : S) :
  truth_manager (_manager (base self)) = true → ready (base self) = false →
  start self
  = (_start;; manager_call "registerInterface" registerInterface;;
     assign_ready true) self.
Proof. unfold start. by intros -> ->. Qed.

Lemma start_no_manager (self : S) :
  truth_manager (_manager (base self)) = false →
  start self =
    (self, Raise (InternalError
       "Can not start an interface without a registered manager.")).
Proof. unfold start. by intros ->. Qed.

(** A call of the manager leaves the interface as it is, whatever its
    outcome. *)
Lemma manager_call_state (name : string)
    (method : Manager → bytes → result unit) (self : S) :
  (manager_call name method self).1 = self.
Proof. unfold manager_call. by destruct (_manager (base self)). Qed.

Lemma hook_keeps_base {A} (m : M S A) (self self' : S) (r : result A) :
  keeps_base m → m self = (self', r) → base self' = base self.
Proof. intros Hk E. specialize (Hk self). unfold after in Hk. by rewrite E in Hk. Qed.

(** After a [start] that returned, the interface is ready and its
    manager is true in a condition. *)
Lemma start_returned (self : S) :
  outcome start self = Return tt →
  ready (base (after start self)) = true
  ∧ truth_manager (_manager (base (after start self))) = true.
Proof using Hhooks.
  destruct Hhooks as (Hstart & _).
  unfold outcome, after.
  destruct (truth_manager (_manager (base self))) eqn:Em;
    [|by rewrite start_no_manager].
  destruct (ready (base self)) eqn:Er.
  - rewrite start_unfold_ready by done. simpl. by rewrite Em, Er.
  - rewrite start_unfold_hooks by done.
    unfold mbind, meth_bind, Meth.bind.
    destruct (_start self) as [s1 r1] eqn:E1.
    pose proof (hook_keeps_base _ _ _ _ Hstart E1) as Hb.
    destruct r1 as [[]| |]; [|done..].
    pose proof (manager_call_state "registerInterface" registerInterface s1)
      as Hs.
    destruct (manager_call _ _ s1) as [s2 [[]| |]]; [|done..].
    simpl in Hs. subst s2. unfold assign_ready. simpl. intros _.
    rewrite base_with_base, Hb. simpl. by rewrite Em.
Qed.

(** X1: calling [start] again after a [start] that returned changes
    nothing and returns: the hook is not run a second time. *)
Theorem start_twice_is_start_once (self : S) :
  outcome start self = Return tt →
  start (after start self) = (after start self, Return tt).
Proof using Hhooks.
  intros [Hr Hm]%start_returned. by apply start_unfold_ready.
Qed.

Lemma stop_idle (self : S) :
  ready (base self) = false → stop self = (self, Return tt).
Proof. unfold stop. by intros ->. Qed.

(** After a [stop] that returned, the interface is not ready. *)
Lemma stop_returned (self : S) :
  outcome stop self = Return tt → ready (base (after stop self)) = false.
Proof.
  unfold outcome, after. destruct (ready (base self)) eqn:Er.
  - unfold stop. rewrite Er. cbn [negb].
    unfold mbind, meth_bind, Meth.bind.
    destruct (_stop self) as [s1 [[]| |]]; [|done..].
    unfold assign_ready.
    pose proof (manager_call_state "unregisterInterface" unregisterInterface
                  (with_base (set_ready false (base s1)) s1)) as Hs.
    destruct (manager_call _ _ _) as [s2 [[]| |]]; [|done..].
    simpl in Hs. subst s2. simpl. intros _. by rewrite base_with_base.
  - by rewrite (stop_idle _ Er).
Qed.

(** X2: after a [stop] that returned the interface is not ready, and a
    further [stop] changes nothing and returns. *)
Theorem stop_twice_is_stop_once (self : S) :
  outcome stop self = Return tt →
  ready (base (after stop self)) = false
  ∧ stop (after stop self) = (after stop self, Return tt).
Proof.
  intros Hoff%stop_returned. split; [done | by apply stop_idle].
Qed.

(** ** What a sequence of calls can do to the base attributes *)

(** One call leaves the base attributes alone, or registers a manager
    where the one held (if any) is false in a condition, or switches
    [ready] on (with a manager that is true in a condition) or off. *)
Lemma step_base (o : op) (self : S) :
  base (step o self) = base self
  ∨ (∃ m, o = RegisterManager m
          ∧ truth_manager (_manager (base self)) = false
          ∧ base (step o self) = set_manager (Some m) (base self))
  ∨ (o = Start ∧ truth_manager (_manager (base self)) = true
     ∧ base (step o self) = set_ready true (base self))
  ∨ (o = Stop ∧ base (step o self) = set_ready false (base self)).
Proof using Hhooks.
  destruct Hhooks as (Hstart & Hsend & Hreceive & Hstop).
  destruct o as [m| |msg|taskID|]; unfold step, after.
  - unfold registerManager.
    destruct (truth_manager (_manager (base self))) eqn:Em; simpl; [by left|].
    right; left. exists m. by rewrite base_with_base.
  - unfold start.
    destruct (truth_manager (_manager (base self))) eqn:Em; simpl; [|by left].
    destruct (ready (base self)); [by left|].
    unfold mbind, meth_bind, Meth.bind.
    destruct (_start self) as [s1 r] eqn:E1.
    pose proof (hook_keeps_base _ _ _ _ Hstart E1) as Hb.
    destruct r as [[]| |]; simpl; [|by left..].
    pose proof (manager_call_state "registerInterface" registerInterface s1)
      as Hs.
    destruct (manager_call _ _ s1) as [s2 r2]. simpl in Hs. subst s2.
    destruct r2 as [[]| |]; simpl; [|by left..].
    right; right; left. unfold assign_ready. simpl.
    by rewrite base_with_base, Hb.
  - unfold send. destruct (ready (base self)); [by left|]. left.
    destruct (_send msg self) as [s1 r] eqn:E1. simpl.
    exact (hook_keeps_base _ _ _ _ (Hsend msg) E1).
  - unfold receive. destruct (ready (base self)); [by left|]. left.
    destruct (_receive taskID self) as [s1 r] eqn:E1. simpl.
    exact (hook_keeps_base _ _ _ _ (Hreceive taskID) E1).
  - unfold stop. destruct (ready (base self)); simpl; [|by left].
    unfold mbind, meth_bind, Meth.bind.
    destruct (_stop self) as [s1 r] eqn:E1.
    pose proof (hook_keeps_base _ _ _ _ Hstop E1) as Hb.
    destruct r as [[]| |]; simpl; [|by left..].
    unfold assign_ready.
    pose proof (manager_call_state "unregisterInterface" unregisterInterface
                  (with_base (set_ready false (base s1)) s1)) as Hs.
    destruct (manager_call _ _ _) as [s2 r2]. simpl in Hs. subst s2.
    right; right; right. split; [done|].
    destruct r2 as [[]| |]; simpl; by rewrite base_with_base, Hb.
Qed.

Lemma drive_snoc (ops : list op) (o : op) (self : S) :
  drive (ops ++ [o]) self = step o (drive ops self).
Proof. unfold drive. by rewrite foldl_app. Qed.

(** X3: whatever public methods are called, in whatever order and
    with whatever outcome, the name of the interface stays what it was,
    and a registered manager that is true in a condition stays the
    registered one. *)
Theorem name_and_manager_are_stable (ops : list op) (self : S) :
  interfaceName (base (drive ops self)) = interfaceName (base self)
  ∧ ∀ m, manager_truth m = true → _manager (base self) = Some m →
         _manager (base (drive ops self)) = Some m.
Proof using Hhooks.
  induction ops as [|o ops IH] using rev_ind; [done|].
  rewrite drive_snoc. destruct IH as [IHn IHm].
  destruct (step_base o (drive ops self))
    as [E|[(m' & _ & Hfalse & E)|[(_ & _ & E)|(_ & E)]]]; rewrite E;
    (split; [by rewrite <- IHn|]); intros m Ht Hm; simpl; auto.
  rewrite (IHm _ Ht Hm) in Hfalse. simpl in Hfalse. congruence.
Qed.

(** X4: an interface that is not ready and has no manager does not
    become ready, and gets no manager, by any sequence of calls that does
    not contain [registerManager]. *)
Theorem no_manager_never_ready (ops : list op) (self : S) :
  _manager (base self) = None → ready (base self) = false →
  forallb (λ o, negb (registers o)) ops = true →
  ready (base (drive ops self)) = false
  ∧ _manager (base (drive ops self)) = None.
Proof using Hhooks.
  intros Hm Hr. induction ops as [|o ops IH] using rev_ind; [done|].
  rewrite forallb_app. simpl. rewrite andb_true_r.
  intros [Hops Ho]%andb_true_iff. destruct (IH Hops) as [IHr IHm].
  rewrite drive_snoc.
  destruct (step_base o (drive ops self))
    as [E|[(m' & -> & _)|[(_ & Htrue & _)|(_ & E)]]]; try rewrite E;
    try done.
  rewrite IHm in Htrue. done.
Qed.

(** X5: an interface that is ready only with a manager stays so under
    every sequence of calls; in particular a ready interface always has
    the manager that [stop] is going to notify. *)
Theorem ready_only_with_manager (ops : list op) (self : S) :
  (ready (base self) = true → is_Some (_manager (base self))) →
  ready (base (drive ops self)) = true →
  is_Some (_manager (base (drive ops self))).
Proof using Hhooks.
  intros Hinit. induction ops as [|o ops IH] using rev_ind; [done|].
  rewrite drive_snoc.
  destruct (step_base o (drive ops self))
    as [E|[(m' & _ & _ & E)|[(_ & Htrue & E)|(_ & E)]]]; rewrite E; simpl;
    try by eauto.
  intros _. by destruct (_manager (base (drive ops self))).
Qed.

End LifeCycle.

Lemma start_twice_is_start_once_witness :
  outcome InterfaceBase.start
    (after (InterfaceBase.registerManager manager) subscriber) = Return tt
  ∧ InterfaceBase.start
      (after InterfaceBase.start
         (after (InterfaceBase.registerManager manager) subscriber))
    = (after InterfaceBase.start
         (after (InterfaceBase.registerManager manager) subscriber),
       Return tt).
Proof.
  split; [reflexivity|].
  apply (start_twice_is_start_once Subscriber_hooks_keep_base
           (after (InterfaceBase.registerManager manager) subscriber)).
  reflexivity.
Defined.

Lemma stop_twice_is_stop_once_witness :
  outcome InterfaceBase.stop started_subscriber = Return tt
  ∧ InterfaceBase.ready
      (InterfaceBase.base (after InterfaceBase.stop started_subscriber)) = false
  ∧ InterfaceBase.stop (after InterfaceBase.stop started_subscriber)
    = (after InterfaceBase.stop started_subscriber, Return tt).
Proof.
  split; [reflexivity|].
  apply (stop_twice_is_stop_once started_subscriber). reflexivity.
Defined.

Lemma name_and_manager_are_stable_witness :
  hooks_keep_base PublisherInterface.t
  ∧ manager_truth manager = true
  ∧ InterfaceBase.interfaceName
      (InterfaceBase.base
         (drive [Stop; Send (bytes_of "x"); RegisterManager other_manager; Start]
                started_publisher))
    = bytes_of "chatter"
  ∧ InterfaceBase._manager
      (InterfaceBase.base
         (drive [Stop; Send (bytes_of "x"); RegisterManager other_manager; Start]
                started_publisher))
    = Some manager.
Proof.
  split; [apply Publisher_hooks_keep_base|]. split; [reflexivity|].
  pose proof (name_and_manager_are_stable Publisher_hooks_keep_base
    [Stop; Send (bytes_of "x"); RegisterManager other_manager; Start]
    started_publisher) as [Hn Hm].
  split; [exact Hn | apply Hm; reflexivity].
Defined.

Lemma no_manager_never_ready_witness :
  InterfaceBase._manager (InterfaceBase.base subscriber) = None
  ∧ InterfaceBase.ready (InterfaceBase.base subscriber) = false
  ∧ InterfaceBase.ready
      (InterfaceBase.base (drive [Start; Receive []; Stop; Start] subscriber))
    = false
  ∧ InterfaceBase._manager
      (InterfaceBase.base (drive [Start; Receive []; Stop; Start] subscriber))
    = None.
Proof.
  split; [reflexivity|]. split; [reflexivity|].
  apply (no_manager_never_ready Subscriber_hooks_keep_base
           [Start; Receive []; Stop; Start] subscriber); reflexivity.
Defined.

Lemma ready_only_with_manager_witness :
  InterfaceBase.ready
    (InterfaceBase.base
       (drive [RegisterManager manager; Start; Send []; Receive []] service))
  = true
  ∧ is_Some
      (InterfaceBase._manager
         (InterfaceBase.base
            (drive [RegisterManager manager; Start; Send []; Receive []]
                   service))).
Proof.
  split; [reflexivity|].
  apply (ready_only_with_manager Service_hooks_keep_base
           [RegisterManager manager; Start; Send []; Receive []] service).
  - intros _. by eexists.
  - reflexivity.
Defined.

(** ** Operations a class does not support *)

(** X6: [send] on a subscriber, [receive] on a publisher, and both on
    a plain [InterfaceBase], raise [InternalError] in every state, ready or
    not, and change nothing. *)
Theorem unsupported_operations_raise :
  (∀ (self : SubscriberInterface.t) (msg : bytes),
     ∃ text, InterfaceBase.send msg self = (self, Raise (InternalError text)))
  ∧ (∀ (self : PublisherInterface.t) (taskID : bytes),
       ∃ text, InterfaceBase.receive taskID self
               = (self, Raise (InternalError text)))
  ∧ (∀ (self : InterfaceBase.t) (msg : bytes),
       ∃ text, InterfaceBase.send msg self = (self, Raise (InternalError text)))
  ∧ (∀ (self : InterfaceBase.t) (taskID : bytes),
       ∃ text, InterfaceBase.receive taskID self
               = (self, Raise (InternalError text))).
Proof.
  repeat split; intros self x.
  - unfold InterfaceBase.send.
    destruct (InterfaceBase.ready _); by eexists.
  - unfold InterfaceBase.receive.
    destruct (InterfaceBase.ready _); by eexists.
  - unfold InterfaceBase.send.
    destruct (InterfaceBase.ready _); by eexists.
  - unfold InterfaceBase.receive.
    destruct (InterfaceBase.ready _); by eexists.
Qed.

(** ** The subscriber's single slot *)

Lemma deliver_snoc (buffs : list bytes) (buff : bytes)
    (self : SubscriberInterface.t) :
  deliver (buffs ++ [buff]) self
  = after (SubscriberInterface._callbackFunc buff) (deliver buffs self).
Proof. unfold deliver. by rewrite foldl_app. Qed.

Lemma deliver_keeps_rest (buffs : list bytes) (self : SubscriberInterface.t) :
  SubscriberInterface.as_base (deliver buffs self)
  = SubscriberInterface.as_base self
  ∧ SubscriberInterface._subscriber (deliver buffs self)
    = SubscriberInterface._subscriber self.
Proof.
  induction buffs as [|buff buffs IH] using rev_ind; [done|].
  by rewrite deliver_snoc.
Qed.

(** X7: after any deliveries, [_receive] returns the buffer delivered
    last, whatever token it is given, or what the slot held before when
    nothing was delivered; reading does not empty the slot, and deliveries
    touch neither the base attributes nor the subscription. *)
Theorem subscriber_latest_wins (buffs : list bytes) (taskID : bytes)
    (self : SubscriberInterface.t) :
  SubscriberInterface._receive taskID (deliver buffs self)
  = (deliver buffs self,
     Return (default (SubscriberInterface._lastMsg self) (VStr <$> last buffs)))
  ∧ SubscriberInterface.as_base (deliver buffs self)
    = SubscriberInterface.as_base self
  ∧ SubscriberInterface._subscriber (deliver buffs self)
    = SubscriberInterface._subscriber self.
Proof.
  split; [|apply deliver_keeps_rest].
  unfold SubscriberInterface._receive. f_equal. f_equal.
  induction buffs as [|buff buffs IH] using rev_ind; [done|].
  by rewrite deliver_snoc, last_snoc.
Qed.

(** X8: [stop] on a ready subscriber that holds its subscription and
    has a manager ends as the manager's [unregisterInterface] does; either
    way the subscription is dropped and the last message kept, the
    interface is then not ready, and [receive] hands out that last
    message. *)
Theorem subscriber_stop_keeps_last_message (self : SubscriberInterface.t)
    (sub : Subscriber) (m : Manager) (taskID : bytes) :
  InterfaceBase.ready (SubscriberInterface.as_base self) = true →
  InterfaceBase._manager (SubscriberInterface.as_base self) = Some m →
  SubscriberInterface._subscriber self = Bound (Some sub) →
  outcome InterfaceBase.stop self
  = unregisterInterface m
      (InterfaceBase.interfaceName (SubscriberInterface.as_base self))
  ∧ SubscriberInterface._subscriber (after InterfaceBase.stop self) = Bound None
  ∧ InterfaceBase.receive taskID (after InterfaceBase.stop self)
    = (after InterfaceBase.stop self,
       Return (SubscriberInterface._lastMsg self)).
Proof.
  destruct self as [[name man rdy] lastMsg subscriber]. simpl.
  intros -> -> ->. unfold outcome, after. simpl.
  by destruct (unregisterInterface m name) as [[]| |].
Qed.

Lemma subscriber_stop_keeps_last_message_witness :
  InterfaceBase.ready (SubscriberInterface.as_base started_subscriber) = true
  ∧ InterfaceBase.receive [] (after InterfaceBase.stop started_subscriber)
    = (after InterfaceBase.stop started_subscriber,
       Return (VStr (bytes_of "A"))).
Proof.
  split; [reflexivity|].
  apply (subscriber_stop_keeps_last_message started_subscriber
           {| sub_topic := bytes_of "scan" |} manager []); reflexivity.
Defined.

(** ** The publisher and its handle *)

Section PublisherStates.
Import PublisherInterface.

Lemma ready_with_handle_step (o : op) (self : t) :
  ready_with_handle self → ready_with_handle (step o self).
Proof.
  destruct self as [[name man rdy] pub rospy].
  unfold ready_with_handle. intros H.
  destruct o as [m'| |msg|taskID|]; unfold step, after.
  - unfold InterfaceBase.registerManager. simpl.
    destruct (truth_manager man); simpl; [done|].
    intros Hr. destruct (H Hr) as [Hp _]. split; [done | by eexists].
  - unfold InterfaceBase.start. simpl.
    destruct (truth_manager man) eqn:Et; simpl; [|done].
    destruct rdy; simpl; [done|].
    destruct man as [m|]; [|done]. unfold mbind, meth_bind, Meth.bind. simpl.
    destruct (registerInterface m name) as [[]| |]; simpl; [|done..].
    intros _. split; by eexists.
  - unfold InterfaceBase.send. simpl. destruct rdy; simpl; [done|].
    unfold _send, mbind, meth_bind, Meth.bind, Meth.try_except,
      publisher_publish. simpl.
    destruct pub as [|[p|]]; simpl; try done.
    by destruct (publish p msg) as [[]|[]|].
  - unfold InterfaceBase.receive. simpl. by destruct rdy.
  - unfold InterfaceBase.stop. simpl. destruct rdy; simpl; [|done].
    destruct (H eq_refl) as [[p Hp] [m Hm]]. simpl in Hp, Hm. subst.
    unfold mbind, meth_bind, Meth.bind. simpl.
    by destruct (unregisterInterface m name) as [[]| |].
Qed.

Lemma ready_with_handle_drive (ops : list op) (self : t) :
  ready_with_handle self → ready_with_handle (drive ops self).
Proof.
  intros Hinit. induction ops as [|o ops IH] using rev_ind; [done|].
  rewrite drive_snoc. by apply ready_with_handle_step.
Qed.

(** With managers that let the interface register, a publisher that is
    not ready holds no handle either. *)
Lemma handle_follows_ready_step (name : bytes) (o : op) (self : t) :
  cooperative name o →
  manager_cooperates name self ∧ ready_with_handle self
    ∧ idle_without_handle self →
  manager_cooperates name (step o self) ∧ ready_with_handle (step o self)
    ∧ idle_without_handle (step o self).
Proof.
  intros Ho (Hm & Hr & Hi).
  split; [|split; [by apply ready_with_handle_step|]].
  - destruct self as [[name' man rdy] pub rospy].
    destruct Hm as [Hname Hm]. simpl in Hname, Hm. subst name'.
    unfold manager_cooperates.
    destruct o as [m'| |msg|taskID|]; unfold step, after.
    + unfold InterfaceBase.registerManager. simpl.
      destruct (truth_manager man); simpl; [done|].
      split; [done|]. by intros m [= <-].
    + unfold InterfaceBase.start. simpl.
      destruct (truth_manager man) eqn:Et; simpl; [|done].
      destruct rdy; simpl; [done|].
      destruct man as [m|]; [|done].
      unfold mbind, meth_bind, Meth.bind. simpl.
      by destruct (registerInterface m name) as [[]| |].
    + unfold InterfaceBase.send. simpl. destruct rdy; simpl; [done|].
      unfold _send, mbind, meth_bind, Meth.bind, Meth.try_except,
        publisher_publish. simpl.
      destruct pub as [|[p|]]; simpl; try done.
      by destruct (publish p msg) as [[]|[]|].
    + unfold InterfaceBase.receive. simpl. by destruct rdy.
    + unfold InterfaceBase.stop. simpl. destruct rdy; simpl; [|done].
      destruct (Hr eq_refl) as [[p Hp] [m Hman]]. simpl in Hp, Hman. subst.
      unfold mbind, meth_bind, Meth.bind. simpl.
      by destruct (unregisterInterface m name) as [[]| |].
  - destruct self as [[name' man rdy] pub rospy].
    destruct Hm as [Hname Hm]. simpl in Hname, Hm. subst name'.
    unfold idle_without_handle in *. simpl in Hi.
    destruct o as [m'| |msg|taskID|]; unfold step, after.
    + unfold InterfaceBase.registerManager. simpl.
      by destruct (truth_manager man).
    + unfold InterfaceBase.start. simpl.
      destruct (truth_manager man) eqn:Et; simpl; [|done].
      destruct rdy; simpl; [done|].
      destruct man as [m|]; [|done].
      unfold mbind, meth_bind, Meth.bind. simpl.
      by rewrite (Hm m eq_refl).
    + unfold InterfaceBase.send. simpl. destruct rdy; simpl; [done|].
      unfold _send, mbind, meth_bind, Meth.bind, Meth.try_except,
        publisher_publish. simpl.
      by destruct (Hi eq_refl) as [-> | ->].
    + unfold InterfaceBase.receive. simpl. by destruct rdy.
    + unfold InterfaceBase.stop. simpl. destruct rdy; simpl; [|done].
      destruct (Hr eq_refl) as [[p Hp] [m Hman]]. simpl in Hp, Hman. subst.
      unfold mbind, meth_bind, Meth.bind. simpl.
      destruct (unregisterInterface m name) as [[]| |]; simpl; by right.
Qed.

Lemma handle_follows_ready_drive (name : bytes) (ops : list op) (self : t) :
  Forall (cooperative name) ops →
  manager_cooperates name self ∧ ready_with_handle self
    ∧ idle_without_handle self →
  manager_cooperates name (drive ops self) ∧ ready_with_handle (drive ops self)
    ∧ idle_without_handle (drive ops self).
Proof.
  intros Hops Hinit. induction ops as [|o ops IH] using rev_ind; [done|].
  apply Forall_app in Hops as [Hops Ho%Forall_inv].
  rewrite drive_snoc. by apply handle_follows_ready_step, IH.
Qed.

Lemma send_without_handle (self : t) (msg : bytes) :
  idle_without_handle self → ∃ e, InterfaceBase.send msg self = (self, Raise e).
Proof.
  destruct self as [[name man rdy] pub rospy].
  unfold idle_without_handle, InterfaceBase.send. simpl.
  destruct rdy; [by eexists|]. intros Hi.
  unfold _send, mbind, meth_bind, Meth.bind, Meth.try_except,
    publisher_publish. simpl.
  destruct (Hi eq_refl) as [-> | ->]; by eexists.
Qed.

End PublisherStates.

(** X9: a publisher created by its constructor and then driven by
    any sequence of public calls, whatever the manager answers, holds a
    middleware handle and has a manager whenever it is ready: [_stop]
    always finds a handle to unregister. *)
Theorem ready_publisher_holds_handle (rospy : Rospy) (name : bytes)
    (ops : list op) :
  ready_with_handle (drive ops (PublisherInterface.__init__ rospy name)).
Proof. by apply ready_with_handle_drive. Qed.





(** ** Task objects *)

Section TaskObjects.
Import ServiceInterface.

Lemma keeps_bind {S A B} (P : S → Prop) (m : M S A) (k : A → M S B) :
  keeps P m → (∀ a, keeps P (k a)) → keeps P (m ≫= k).
Proof.
  intros Hm Hk self HP. specialize (Hm self HP).
  unfold after, mbind, meth_bind, Meth.bind in *.
  destruct (m self) as [s1 [a| |]]; [|done..]. by apply Hk.
Qed.

Lemma keeps_setattr (name : string) (v : value) :
  keeps slots_only (ServiceTask.setattr name v).
Proof.
  intros obj Hobj. unfold after, ServiceTask.setattr.
  case_decide as Hin; [|done]. simpl. intros name' Hsome.
  destruct (decide (name = name')) as [<-|Hne]; [done|].
  rewrite lookup_insert_ne in Hsome by done. by apply Hobj.
Qed.

Lemma slots_only_hasID (obj : ServiceTask.t) :
  slots_only obj → obj !! "_hasID" = None.
Proof.
  intros Hobj. destruct (obj !! "_hasID") eqn:E; [|done].
  destruct no_slot_hasID. by apply Hobj.
Qed.

Lemma init_keeps_slots_only (srv : value) (msg : bytes) :
  keeps slots_only (ServiceTask.__init__ srv msg).
Proof.
  unfold ServiceTask.__init__.
  repeat (apply keeps_bind; [apply keeps_setattr | intros _]).
  apply keeps_setattr.
Qed.

Lemma pending_task_slots_only : slots_only pending_task.
Proof. apply init_keeps_slots_only. by intros name [v Hv]. Qed.

(** X12: on an object that holds nothing but slots, [setID] raises
    [AttributeError] for every identifier and leaves the object as it was:
    the identifier is not stored. *)
Theorem setID_never_binds (obj : ServiceTask.t) (taskID : bytes) :
  slots_only obj →
  ServiceTask.setID taskID obj = (obj, Raise (AttributeError "_hasID")).
Proof.
  intros Hobj%slots_only_hasID.
  unfold ServiceTask.setID, mbind, meth_bind, Meth.bind, ServiceTask.getattr.
  by rewrite Hobj.
Qed.

(** X13: [run] on an object that holds nothing but slots, among them
    the request in [_msg].  Interrupted, it returns and leaves the object
    alone.  With a response it stores the response in [_msg] and sets
    [_completed]; with any other exception it stores the diagnostic in
    [_msg] and sets [_error]; in both cases it then raises
    [AttributeError] at [self._hasID], and no other slot has changed. *)
Theorem run_records_then_raises (obj : ServiceTask.t) (str_e : bytes) :
  slots_only obj → is_Some (obj !! "_msg") →
  ServiceTask.run (Raise ROSInterruptException) str_e obj = (obj, Return tt)
  ∧ (∀ buff,
       ServiceTask.run (Return buff) str_e obj
       = (<["_completed" := VBool true]> (<["_msg" := VStr buff]> obj),
          Raise (AttributeError "_hasID")))
  ∧ (∀ e, e ≠ ROSInterruptException →
       ServiceTask.run (Raise e) str_e obj
       = (<["_error" := VBool true]> (<["_msg" := VStr str_e]> obj),
          Raise (AttributeError "_hasID"))).
Proof.
  intros Hobj [request Hmsg].
  pose proof (slots_only_hasID _ Hobj) as Hev.
  assert (∀ flag v, (<[flag := VBool true]> (<["_msg" := v]> obj)) !! "_hasID"
                    = None ∨ flag = "_hasID") as Hafter.
  { intros flag v. destruct (decide (flag = "_hasID")) as [->|Hne]; [by right|].
    left. by rewrite !lookup_insert_ne. }
  repeat split.
  - unfold ServiceTask.run, mbind, meth_bind, Meth.bind, ServiceTask.getattr.
    by rewrite Hmsg.
  - intros buff.
    unfold ServiceTask.run, mbind, meth_bind, Meth.bind.
    unfold ServiceTask.getattr at 1. rewrite Hmsg.
    rewrite !setattr_slot by by_decide.
    unfold ServiceTask.getattr.
    by destruct (Hafter "_completed" (VStr buff)) as [->|?].
  - intros e He.
    unfold ServiceTask.run, mbind, meth_bind, Meth.bind.
    unfold ServiceTask.getattr at 1. rewrite Hmsg.
    destruct e; try done;
      (rewrite !setattr_slot by by_decide;
       unfold ServiceTask.getattr;
       by destruct (Hafter "_error" (VStr str_e)) as [->|?]).
Qed.

End TaskObjects.

Lemma setID_never_binds_witness :
  slots_only pending_task
  ∧ ServiceInterface.ServiceTask.setID (bytes_of "id-1") pending_task
    = (pending_task, Raise (AttributeError "_hasID")).
Proof.
  split; [apply pending_task_slots_only|].
  apply (setID_never_binds pending_task (bytes_of "id-1")).
  apply pending_task_slots_only.
Defined.

Lemma run_records_then_raises_witness :
  slots_only pending_task
  ∧ is_Some (pending_task !! "_msg")
  ∧ ServiceInterface.ServiceTask.run (Return (bytes_of "response")) diagnostic
      pending_task
    = (<["_completed" := VBool true]>
         (<["_msg" := VStr (bytes_of "response")]> pending_task),
       Raise (AttributeError "_hasID"))
  ∧ ServiceInterface.ServiceTask.run (Raise ROSException) diagnostic
      pending_task
    = (<["_error" := VBool true]>
         (<["_msg" := VStr diagnostic]> pending_task),
       Raise (AttributeError "_hasID")).
Proof.
  split; [apply pending_task_slots_only|].
  split; [by eexists|].
  destruct (run_records_then_raises pending_task diagnostic
              pending_task_slots_only (ltac:(by eexists)))
    as (_ & Hok & Hfail).
  split; [apply Hok | by apply Hfail].
Defined.

(** ** A service interface in use *)

Section ServiceInUse.
Import ServiceInterface.

(** What a call leaves of a state: everything but the base attributes. *)
Lemma step_service (o : op) (st : state) :
  ∃ b, step o st
       = with_self (λ s, {| as_base := b; srvCls := srvCls s;
                            _tasks := _tasks s |}) st.
Proof.
  assert (∀ st' : state, st' = with_self
            (λ s, {| as_base := as_base (self st'); srvCls := srvCls s;
                     _tasks := _tasks s |}) st') as Hid.
  { by intros [[] ? ? ?]. }
  destruct o as [m| |msg|taskID|]; unfold step, after.
  - unfold InterfaceBase.registerManager.
    destruct (truth_manager _); simpl; eauto.
  - unfold InterfaceBase.start. simpl.
    destruct (truth_manager _); simpl; [|by eauto].
    destruct (InterfaceBase.ready _); simpl; [by eauto|].
    destruct st as [[[name man rdy] cls tasks] heap threads gen].
    unfold mbind, meth_bind, Meth.bind. simpl.
    destruct man as [m|]; simpl; [|by eauto].
    destruct (registerInterface m name) as [[]| |]; simpl; eauto.
  - unfold InterfaceBase.send.
    destruct (InterfaceBase.ready _); [simpl; by eauto|].
    change (InterfaceBase._send msg st) with (_send msg st).
    rewrite Service_send_raises. simpl. eauto.
  - unfold InterfaceBase.receive.
    destruct (InterfaceBase.ready _); [simpl; by eauto|].
    change (InterfaceBase._receive taskID st) with (_receive taskID st).
    destruct (Service_receive_raises st taskID) as [e ->]. simpl. eauto.
  - unfold InterfaceBase.stop. simpl.
    destruct (InterfaceBase.ready _); simpl; [|by eauto].
    destruct st as [[[name man rdy] cls tasks] heap threads gen].
    unfold mbind, meth_bind, Meth.bind. simpl.
    destruct man as [m|]; simpl; [|by eauto].
    destruct (unregisterInterface m name) as [[]| |]; simpl; eauto.
Qed.

(** X14: on a service interface, in every state, [send] raises for
    every payload and [receive] raises for every token, and both leave the
    state as it was: no call ever hands out a token or a response. *)
Theorem service_interface_never_answers (st : state) (msg taskID : bytes) :
  (∃ e, InterfaceBase.send msg st = (st, Raise e))
  ∧ (∃ e, InterfaceBase.receive taskID st = (st, Raise e)).
Proof.
  split.
  - unfold InterfaceBase.send.
    destruct (InterfaceBase.ready _); [by eexists|].
    change (InterfaceBase._send msg st) with (_send msg st).
    rewrite Service_send_raises. by eexists.
  - unfold InterfaceBase.receive.
    destruct (InterfaceBase.ready _); [by eexists|].
    apply Service_receive_raises.
Qed.

(** X15: whatever public methods are called on a service interface,
    the registry, the task objects, the list of dispatched tasks, the
    identifier generator and the service class are what they were at the
    start: no call registers, dispatches or removes a task. *)
Theorem service_registry_is_frozen (ops : list op) (st : state) :
  _tasks (self (drive ops st)) = _tasks (self st)
  ∧ srvCls (self (drive ops st)) = srvCls (self st)
  ∧ heap (drive ops st) = heap st
  ∧ threads (drive ops st) = threads st
  ∧ generateID (drive ops st) = generateID st.
Proof.
  induction ops as [|o ops IH] using rev_ind; [done|].
  rewrite drive_snoc.
  destruct (step_service o (drive ops st)) as [b ->]. exact IH.
Qed.

(** ** The allocation loop *)

(** X16: when the loop of [_send] settles on an identifier, the
    candidates drawn before it were all keys of the registry, the
    identifier itself was not, the task is stored under it, every earlier
    entry is still there unchanged, and the registry has grown by one. *)
Theorem allocate_result (candidates rest : list bytes)
    (tasks tasks' : gmap bytes loc) (task : loc) (uid : bytes) :
  allocate candidates tasks task = Some (uid, rest, tasks') →
  (∃ skipped, candidates = skipped ++ uid :: rest
              ∧ Forall (λ c, is_Some (tasks !! c)) skipped)
  ∧ tasks !! uid = None
  ∧ tasks' !! uid = Some task
  ∧ (∀ k t, tasks !! k = Some t → tasks' !! k = Some t)
  ∧ size tasks' = S (size tasks).
Proof.
  intros Halloc.
  assert (tasks !! uid = None ∧ tasks' = <[uid := task]> tasks) as [Hfree ->]
    by by eapply allocate_fresh.
  split; [|split; [done|split; [by rewrite lookup_insert_eq|split]]].
  - clear Hfree.
    induction candidates as [|c candidates IH]; [done|]. simpl in Halloc.
    destruct (tasks !! c) eqn:E.
    + destruct (IH Halloc) as (skipped & -> & Hall).
      exists (c :: skipped). split; [done|]. constructor; [by eexists|done].
    + injection Halloc as <- <- _. by exists [].
  - intros k t Hk. rewrite lookup_insert_ne; [done|]. congruence.
  - by apply map_size_insert_None.
Qed.

(** X17: the loop goes on through all the identifiers it is given
    exactly when every one of them is already a key; as soon as one is
    free, it ends there. *)
Theorem allocate_ends_at_first_free (candidates : list bytes)
    (tasks : gmap bytes loc) (task : loc) :
  allocate candidates tasks task = None
  ↔ Forall (λ c, is_Some (tasks !! c)) candidates.
Proof.
  induction candidates as [|c candidates IH]; simpl.
  - split; [constructor | done].
  - destruct (tasks !! c) eqn:E.
    + rewrite IH. split; [by constructor; [eexists|] | by inversion 1].
    + split; [done|]. inversion 1 as [|? ? [t Ht]]. congruence.
Qed.

End ServiceInUse.

Lemma allocate_result_witness :
  ServiceInterface.allocate candidates taken 2
  = Some (bytes_of "id-3", [bytes_of "id-4"], <[bytes_of "id-3" := 2]> taken)
  ∧ taken !! bytes_of "id-3" = None
  ∧ size (<[bytes_of "id-3" := 2]> taken) = S (size taken).
Proof.
  assert (ServiceInterface.allocate candidates taken 2
          = Some (bytes_of "id-3", [bytes_of "id-4"],
                  <[bytes_of "id-3" := 2]> taken)) as H
    by (vm_compute; reflexivity).
  split; [exact H|].
  destruct (allocate_result _ _ _ _ _ _ H) as (_ & Hfree & _ & _ & Hsize).
  by split.
Defined.

(** ** Descriptors, once more *)

(** X18: [ServiceInterface.deserialize] returns for no buffer and on
    no class: it raises [SerializationError] when the buffer ends before
    the first length field or before the second one is complete, and
    [TypeError] in every other case. *)
Theorem ServiceInterface_deserialize_outcome (rospy : Rospy) (bo : byte_order)
    (cls : value) (data : bytes) :
  ServiceInterface.deserialize (call rospy) bo cls data =
    if decide (length data < LEN_I) then Raise SerializationError
    else if decide (length data <
                    LEN_I + N.to_nat (STRUCT_I.decode
                                        (STRUCT_I.arrange bo (take LEN_I data)))
                    + LEN_I)
         then Raise SerializationError
         else Raise TypeError.
Proof.
  unfold ServiceInterface.deserialize. rewrite unpack_prefix.
  case_decide as Hshort; [done|].
  cbn [mbind result_bind mret result_ret].
  set (n := N.to_nat _). unfold STRUCT_I.unpack.
  case_decide as Hsecond; unfold slice in Hsecond;
    rewrite length_take, length_drop in Hsecond;
    case_decide; try (unfold LEN_I in *; lia); done.
Qed.

(** X19: [deserialize] is inherited as a class method: called on
    [PublisherInterface], [SubscriberInterface] or [InterfaceBase] with a
    serialized name, followed by anything, it returns a fresh instance of
    that very class, named as serialized, not ready and without manager. *)
Theorem deserialize_builds_the_class_called_on (rospy : Rospy)
    (bo : byte_order) (name data rest : bytes) :
  serialize_interface bo name = Return data →
  InterfaceBase.deserialize (call rospy) bo (VClass PublisherInterface_cls)
    (data ++ rest)
  = Return (IPublisher (PublisherInterface.__init__ rospy name))
  ∧ InterfaceBase.deserialize (call rospy) bo (VClass SubscriberInterface_cls)
      (data ++ rest)
    = Return (ISubscriber (SubscriberInterface.__init__ name))
  ∧ InterfaceBase.deserialize (call rospy) bo (VClass InterfaceBase_cls)
      (data ++ rest)
    = Return (IBase (InterfaceBase.__init__ name)).
Proof.
  intros Hser. repeat split;
    by rewrite (InterfaceBase_deserialize_serialize rospy bo _ name data rest).
Qed.

Lemma deserialize_builds_the_class_called_on_witness :
  serialize_interface LittleEndian (bytes_of "scan")
  = Return (STRUCT_I.arrange LittleEndian (STRUCT_I.encode 4) ++ bytes_of "scan")
  ∧ InterfaceBase.deserialize (call Scenario.rospy) LittleEndian
      (VClass SubscriberInterface_cls)
      ((STRUCT_I.arrange LittleEndian (STRUCT_I.encode 4) ++ bytes_of "scan")
       ++ bytes_of "trailing")
    = Return (ISubscriber subscriber).
Proof.
  split; [reflexivity|].
  apply (deserialize_builds_the_class_called_on Scenario.rospy LittleEndian
           (bytes_of "scan")
           (STRUCT_I.arrange LittleEndian (STRUCT_I.encode 4) ++ bytes_of "scan")
           (bytes_of "trailing")).
  reflexivity.
Defined.

(** X20: a [ServiceInterface] that its constructor returns has the
    service class the middleware resolved for the given type, with request
    and response class both replaced by [AnyMsg], an empty registry, and
    the base attributes of a fresh interface; a type the middleware rejects
    with [ValueError] makes the constructor raise [SerializationError], and
    any other exception of the middleware comes through as it is. *)
Theorem ServiceInterface_init_outcome (rospy : Rospy) (cls name : bytes) :
  (∀ o, ServiceInterface.__init__ rospy cls name = Return o →
        (∃ loaded, get_service_class rospy cls = Return loaded
                   ∧ srv_type (ServiceInterface.srvCls o) = srv_type loaded)
        ∧ _request_class (ServiceInterface.srvCls o) = AnyMsg
        ∧ _response_class (ServiceInterface.srvCls o) = AnyMsg
        ∧ ServiceInterface._tasks o = ∅
        ∧ ServiceInterface.as_base o = InterfaceBase.__init__ name)
  ∧ (get_service_class rospy cls = Raise ValueError →
     ServiceInterface.__init__ rospy cls name = Raise SerializationError)
  ∧ (∀ e, e ≠ ValueError → get_service_class rospy cls = Raise e →
          ServiceInterface.__init__ rospy cls name = Raise e).
Proof.
  unfold ServiceInterface.__init__. split; [|split].
  - intros o Hinit.
    destruct (get_service_class rospy cls) as [loaded|[]|]; try done.
    simpl in Hinit. injection Hinit as <-. simpl.
    split; [by eexists | done].
  - by intros ->.
  - intros e He ->. by destruct e.
Qed.

Lemma ServiceInterface_init_outcome_witness :
  (∃ o, ServiceInterface.__init__ Scenario.rospy (bytes_of "pkg/GraspSrv")
          (bytes_of "arm/grasp") = Return o
        ∧ _request_class (ServiceInterface.srvCls o) = AnyMsg
        ∧ ServiceInterface._tasks o = ∅)
  ∧ ServiceInterface.__init__ rospy_without_services (bytes_of "pkg/GraspSrv")
      (bytes_of "arm/grasp") = Raise SerializationError.
Proof.
  split.
  - eexists. split; [reflexivity|].
    destruct (ServiceInterface_init_outcome Scenario.rospy
                (bytes_of "pkg/GraspSrv") (bytes_of "arm/grasp")) as (Hok & _).
    destruct (Hok _ eq_refl) as (_ & Hreq & _ & Htasks & _). by split.
  - destruct (ServiceInterface_init_outcome rospy_without_services
                (bytes_of "pkg/GraspSrv") (bytes_of "arm/grasp"))
      as (_ & Herr & _).
    apply Herr. reflexivity.
Defined.

(** ** The echo server *)

Section Echo.
Import CloudEngineProtocol.

Lemma frames_binary (tmpUUID msg : bytes) :
  frames (onMessage tmpUUID msg true)
  = [(JSON_head ++ tmpUUID ++ bytes_of "}}}", false);
     (tmpUUID ++ drop 32 msg, true)].
Proof. reflexivity. Qed.

(** X21: for a binary message and an identifier of 32 characters, the
    server sends two frames: a text frame that carries the identifier
    between the fixed head and the three closing braces, then a binary
    frame made of the identifier followed by the incoming message without
    its first 32 bytes. *)
Theorem binary_echo_keeps_payload (tmpUUID msg : bytes) :
  length tmpUUID = 32 →
  ∃ reply,
    frames (onMessage tmpUUID msg true)
    = [(JSON_head ++ tmpUUID ++ bytes_of "}}}", false); (reply, true)]
    ∧ take 32 reply = tmpUUID
    ∧ drop 32 reply = drop 32 msg
    ∧ length reply = 32 + (length msg - 32).
Proof.
  intros Hlen. exists (tmpUUID ++ drop 32 msg).
  split; [apply frames_binary|]. rewrite <- Hlen.
  split; [by rewrite take_app_length|].
  split; [by rewrite drop_app_length|].
  by rewrite length_app, length_drop, Hlen.
Qed.

(** X22: sending a binary reply of the server back to it gives a
    binary reply with the payload of the original message under the new
    identifier: the payload survives any number of round trips, only the
    32-byte head is replaced. *)
Theorem echo_of_echo_keeps_payload (tmp1 tmp2 msg reply1 : bytes) :
  length tmp1 = 32 →
  (reply1, true) ∈ frames (onMessage tmp1 msg true) →
  (tmp2 ++ drop 32 msg, true) ∈ frames (onMessage tmp2 reply1 true).
Proof.
  intros Hlen Hin. rewrite frames_binary in Hin |- *.
  apply elem_of_cons in Hin as [[=]|Hin].
  apply list_elem_of_singleton in Hin. injection Hin as ->.
  rewrite <- Hlen, drop_app_length. set_solver.
Qed.

(** X23: a binary message no longer than the 32-byte head has no
    payload: the binary reply is the bare identifier. *)
Theorem short_binary_message_echoes_identifier (tmpUUID msg : bytes) :
  length msg ≤ 32 →
  frames (onMessage tmpUUID msg true)
  = [(JSON_head ++ tmpUUID ++ bytes_of "}}}", false); (tmpUUID, true)].
Proof.
  intros Hlen. rewrite frames_binary, drop_ge by done.
  by rewrite (right_id_L [] (++)).
Qed.

End Echo.

Lemma binary_echo_keeps_payload_witness :
  length uuid = 32
  ∧ ∃ reply,
      CloudEngineProtocol.frames
        (CloudEngineProtocol.onMessage uuid
           (bytes_of "ffffffffffffffffffffffffffffffffpayload") true)
      = [(CloudEngineProtocol.JSON_head ++ uuid ++ bytes_of "}}}", false);
         (reply, true)]
      ∧ take 32 reply = uuid
      ∧ drop 32 reply
        = drop 32 (bytes_of "ffffffffffffffffffffffffffffffffpayload")
      ∧ length reply
        = 32 + (length (bytes_of "ffffffffffffffffffffffffffffffffpayload") - 32).
Proof.
  split; [reflexivity|].
  apply (binary_echo_keeps_payload uuid
           (bytes_of "ffffffffffffffffffffffffffffffffpayload")).
  reflexivity.
Defined.

Lemma echo_of_echo_keeps_payload_witness :
  length uuid = 32
  ∧ (uuid ++ bytes_of "payload", true)
    ∈ CloudEngineProtocol.frames
        (CloudEngineProtocol.onMessage uuid
           (bytes_of "ffffffffffffffffffffffffffffffffpayload") true)
  ∧ (bytes_of "00000000000000000000000000000000" ++
       drop 32 (bytes_of "ffffffffffffffffffffffffffffffffpayload"), true)
    ∈ CloudEngineProtocol.frames
        (CloudEngineProtocol.onMessage
           (bytes_of "00000000000000000000000000000000")
           (uuid ++ bytes_of "payload") true).
Proof.
  assert ((uuid ++ bytes_of "payload", true)
          ∈ CloudEngineProtocol.frames
              (CloudEngineProtocol.onMessage uuid
                 (bytes_of "ffffffffffffffffffffffffffffffffpayload") true))
    as Hin.
  { apply list_elem_of_here || (right; left). }
  split; [reflexivity|]. split; [exact Hin|].
  apply (echo_of_echo_keeps_payload uuid
           (bytes_of "00000000000000000000000000000000")
           (bytes_of "ffffffffffffffffffffffffffffffffpayload")
           (uuid ++ bytes_of "payload")); [reflexivity | exact Hin].
Defined.

Lemma short_binary_message_echoes_identifier_witness :
  length (bytes_of "short") ≤ 32
  ∧ CloudEngineProtocol.frames
      (CloudEngineProtocol.onMessage uuid (bytes_of "short") true)
    = [(CloudEngineProtocol.JSON_head ++ uuid ++ bytes_of "}}}", false);
       (uuid, true)].
Proof.
  split; [vm_compute; lia|].
  apply (short_binary_message_echoes_identifier uuid (bytes_of "short")).
  vm_compute; lia.
Defined.
